(** * roproxy-lite: the request handler and its retry engine

    A shallow embedding of [src/main.go] (the later revision of the proxy):
    [getEnvInt], [requestHandler] and [makeRequest], together with the parts
    of Go's [strings], [strconv] and [time] packages and of the [fasthttp]
    header store that these functions call.

    Conventions.
    - Go's [int] and [time.Duration] are 64-bit two's complement integers
      (a 64-bit platform); they are carried as [Z] with the wrap-around of
      every arithmetic operation written out ([wrap64]).
    - Go strings and byte slices are [string]s (sequences of bytes).
    - The upstream exchange [client.Do] is an oracle indexed by the number of
      exchanges already performed; everything the handler does to the outside
      world (exchanges, log lines, sleeps) is recorded, in order, as a list
      of [Event]s.
    - [makeRequest] calls itself; the embedding takes a recursion budget and
      returns the events performed so far together with the response, if the
      recursion came to an end within the budget. *)

From Stdlib Require Import ZArith List String Ascii Bool Lia Arith.
From Stdlib Require Import DecimalString DecimalPos.
Import ListNotations.

Local Open Scope string_scope.
Local Open Scope Z_scope.

(** ** Machine integers *)

Module Int64.

Definition min_int : Z := - 2 ^ 63.
Definition max_int : Z := 2 ^ 63 - 1.

(** The value a 64-bit signed register holds after an operation whose
    mathematical result is [z]. *)
Definition wrap64 (z : Z) : Z := (z + 2 ^ 63) mod 2 ^ 64 - 2 ^ 63.

Definition add (a b : Z) : Z := wrap64 (a + b).
Definition mul (a b : Z) : Z := wrap64 (a * b).

Definition in_range (z : Z) : Prop := min_int <= z <= max_int.

End Int64.

(** ** Package [time] *)

Module Time.

(** Durations are nanosecond counts. *)
Definition Millisecond : Z := 1000000.
Definition Second : Z := 1000000000.

End Time.

(** ** Package [strings] *)

Module Strings.

Definition lower_ascii (c : ascii) : ascii :=
  let n := nat_of_ascii c in
  if ((65 <=? n) && (n <=? 90))%nat then ascii_of_nat (n + 32) else c.

Definition upper_ascii (c : ascii) : ascii :=
  let n := nat_of_ascii c in
  if ((97 <=? n) && (n <=? 122))%nat then ascii_of_nat (n - 32) else c.

(** [strings.ToLower] on ASCII text (header field names are ASCII tokens;
    bytes above 127 are left as they are). *)
Fixpoint ToLower (s : string) : string :=
  match s with
  | EmptyString => EmptyString
  | String c t => String (lower_ascii c) (ToLower t)
  end.

(** [cut s] splits [s] around its first ['/']. *)
Fixpoint cut (s : string) : option (string * string) :=
  match s with
  | EmptyString => None
  | String c t =>
      if Ascii.eqb c "/" then Some (EmptyString, t)
      else match cut t with
           | Some (a, b) => Some (String c a, b)
           | None => None
           end
  end.

(** [strings.SplitN(s, "/", 2)]: at most two substrings; the second one is
    the unsplit remainder. *)
Definition SplitN2 (s : string) : list string :=
  match cut s with
  | Some (a, b) => [a; b]
  | None => [s]
  end.

(** The slice expression [s[1:]].  Go panics on the empty string; the only
    strings sliced here come from [RequestURI], which is never empty
    (lemma [RequestURI_nonempty] below). *)
Definition from1 (s : string) : string :=
  match s with
  | EmptyString => EmptyString
  | String _ t => t
  end.

Fixpoint has_slash (s : string) : bool :=
  match s with
  | EmptyString => false
  | String c t => Ascii.eqb c "/" || has_slash t
  end.

End Strings.

(** ** Package [strconv] *)

Module Strconv.

Inductive NumError := ErrSyntax | ErrRange.

Definition is_digit (c : ascii) : bool :=
  let n := nat_of_ascii c in ((48 <=? n) && (n <=? 57))%nat.

Definition digit_val (c : ascii) : Z := Z.of_nat (nat_of_ascii c) - 48.

Definition maxUint64 : Z := 2 ^ 64 - 1.

(** The digit loop of [ParseUint(s, 10, 64)], left to right: a byte that is
    not a decimal digit is a syntax error with value 0; an overflow stops
    the loop with the largest value and a range error. *)
Fixpoint parseUint (n : Z) (s : string) : Z * option NumError :=
  match s with
  | EmptyString => (n, None)
  | String c t =>
      if is_digit c then
        if n >=? maxUint64 / 10 + 1 then (maxUint64, Some ErrRange)
        else
          let n1 := n * 10 + digit_val c in
          if n1 >? maxUint64 then (maxUint64, Some ErrRange)
          else parseUint n1 t
      else (0, Some ErrSyntax)
  end.

(** [ParseInt(s, 10, 0)] on a 64-bit platform. *)
Definition ParseInt (s : string) : Z * option NumError :=
  match s with
  | EmptyString => (0, Some ErrSyntax)
  | String c t =>
      let neg := Ascii.eqb c "-" in
      let digits := if Ascii.eqb c "+" || neg then t else s in
      match digits with
      | EmptyString => (0, Some ErrSyntax)
      | _ =>
          match parseUint 0 digits with
          | (_, Some ErrSyntax) => (0, Some ErrSyntax)
          | (un, _) =>
              if negb neg && (un >=? 2 ^ 63) then (2 ^ 63 - 1, Some ErrRange)
              else if neg && (un >? 2 ^ 63) then (- 2 ^ 63, Some ErrRange)
              else (if neg then - un else un, None)
          end
      end
  end.

(** [strconv.Atoi]: its fast path for short inputs computes what
    [ParseInt(s, 10, 0)] computes. *)
Definition Atoi (s : string) : Z * option NumError := ParseInt s.

(** [strconv.Itoa]. *)
Definition Itoa (z : Z) : string := NilZero.string_of_int (Z.to_int z).

End Strconv.

(** ** The [fasthttp] header store, requests and responses

    Only what [main.go] calls is modelled.  A header store is the sequence of
    [key: value] entries that [VisitAll] enumerates.  As in fasthttp, every
    key handed to [Set], [Del] or [Peek] is first brought to canonical form
    ([normalizeHeaderKey]: [Content-Type] style capitalisation), which is what
    makes header names case-insensitive; [Set] overwrites the entry of that
    name if there is one and appends otherwise ([Add], which the proxy never
    calls, is the operation that keeps several values under one name).  A
    request header keeps the [Host] value in a field of its own, enumerated
    first; the further names that fasthttp keeps in dedicated fields of a
    request ([Content-Type], [User-Agent], [Cookie], ...) are held as
    ordinary entries.  On a response, [Set] under a name fasthttp manages
    itself ([ResponseHeader.managedNames]) does not touch the plain entries:
    what fasthttp does with it (it overwrites [Content-Type] and [Server],
    keeps every [Set-Cookie], ignores [Date] and [Transfer-Encoding]) is not
    interpreted, the call is only recorded. *)

Module Fasthttp.

Definition argsKV : Type := string * string.

(** [normalizeHeaderKey]: the first byte and every byte that follows a
    ['-'] are upper-cased, the others lower-cased. *)
Fixpoint normalizeFrom (up : bool) (s : string) : string :=
  match s with
  | EmptyString => EmptyString
  | String c t =>
      if up then String (Strings.upper_ascii c) (normalizeFrom false t)
      else if Ascii.eqb c "-" then String c (normalizeFrom true t)
      else String (Strings.lower_ascii c) (normalizeFrom false t)
  end.

Definition normalizeHeaderKey (s : string) : string := normalizeFrom true s.

Fixpoint setArg (h : list argsKV) (key value : string) : list argsKV :=
  match h with
  | [] => [(key, value)]
  | (k, v) :: t =>
      if String.eqb key k then (k, value) :: t
      else (k, v) :: setArg t key value
  end.

Definition delAllArgs (h : list argsKV) (key : string) : list argsKV :=
  filter (fun kv => negb (String.eqb key (fst kv))) h.

Fixpoint peekArg (h : list argsKV) (key : string) : string :=
  match h with
  | [] => EmptyString
  | (k, v) :: t => if String.eqb key k then v else peekArg t key
  end.

Module RequestHeader.

Record t := mk {
  method : string;
  requestURI : string;
  host : string;
  h : list argsKV
}.

Definition empty : t := mk "" "" "" [].

Definition Method (hd : t) : string :=
  match method hd with EmptyString => "GET" | m => m end.

(** [RequestURI] answers ["/"] for an unset request-target. *)
Definition RequestURI (hd : t) : string :=
  match requestURI hd with EmptyString => "/" | u => u end.

Definition SetMethodBytes (hd : t) (m : string) : t :=
  mk m (requestURI hd) (host hd) (h hd).

Definition SetRequestURI (hd : t) (u : string) : t :=
  mk (method hd) u (host hd) (h hd).

Definition SetHost (hd : t) (v : string) : t :=
  mk (method hd) (requestURI hd) v (h hd).

Definition SetCanonical (hd : t) (key value : string) : t :=
  if String.eqb key "Host" then SetHost hd value
  else mk (method hd) (requestURI hd) (host hd) (setArg (h hd) key value).

Definition Set_ (hd : t) (key value : string) : t :=
  SetCanonical hd (normalizeHeaderKey key) value.

Definition SetBytesKV (hd : t) (key value : string) : t :=
  SetCanonical hd (normalizeHeaderKey key) value.

Definition Del (hd : t) (key : string) : t :=
  let k := normalizeHeaderKey key in
  if String.eqb k "Host" then SetHost hd ""
  else mk (method hd) (requestURI hd) (host hd) (delAllArgs (h hd) k).

Definition Peek (hd : t) (key : string) : string :=
  let k := normalizeHeaderKey key in
  if String.eqb k "Host" then host hd else peekArg (h hd) k.

(** The entries in the order [VisitAll] hands them to its callback. *)
Definition VisitAll (hd : t) : list argsKV :=
  match host hd with
  | EmptyString => h hd
  | v => ("Host", v) :: h hd
  end.

End RequestHeader.

Module Request.

Record t := mk { Header : RequestHeader.t; body : string }.

Definition AcquireRequest : t := mk RequestHeader.empty "".

Definition SetRequestURI (r : t) (u : string) : t :=
  mk (RequestHeader.SetRequestURI (Header r) u) (body r).

Definition SetBody (r : t) (b : string) : t := mk (Header r) b.

Definition Body (r : t) : string := body r.

Definition withHeader (r : t) (hd : RequestHeader.t) : t := mk hd (body r).

End Request.

Module ResponseHeader.

(** [h] holds the plain entries, in the order [VisitAll] enumerates them;
    [managed] records, in call order, what was [Set] under a name fasthttp
    manages itself.  For a response received from the upstream [h] lists
    every entry [VisitAll] enumerates, whatever its name. *)
Record t := mk { statusCode : Z; managed : list argsKV; h : list argsKV }.

Definition empty : t := mk 0 [] [].

(** The names [ResponseHeader.Set] treats in a way of its own instead of
    setting a plain entry (compared case-insensitively). *)
Definition managedNames : list string :=
  [ "content-type"; "content-length"; "content-encoding"; "connection";
    "server"; "set-cookie"; "transfer-encoding"; "trailer"; "date" ].

Definition isManaged (k : string) : bool :=
  existsb (String.eqb (Strings.ToLower k)) managedNames.

(** An unset status code reads as 200. *)
Definition StatusCode (hd : t) : Z :=
  if statusCode hd =? 0 then 200 else statusCode hd.

Definition SetStatusCode (hd : t) (sc : Z) : t := mk sc (managed hd) (h hd).

Definition Set_ (hd : t) (key value : string) : t :=
  let k := normalizeHeaderKey key in
  if isManaged k
  then mk (statusCode hd) (managed hd ++ [(k, value)])%list (h hd)
  else mk (statusCode hd) (managed hd) (setArg (h hd) k value).

(** [Peek] under a plain name. *)
Definition Peek (hd : t) (key : string) : string :=
  peekArg (h hd) (normalizeHeaderKey key).

Definition VisitAll (hd : t) : list argsKV := h hd.

End ResponseHeader.

Module Response.

Record t := mk { Header : ResponseHeader.t; body : string }.

Definition AcquireResponse : t := mk ResponseHeader.empty "".

Definition StatusCode (r : t) : Z := ResponseHeader.StatusCode (Header r).

Definition SetStatusCode (r : t) (sc : Z) : t :=
  mk (ResponseHeader.SetStatusCode (Header r) sc) (body r).

Definition SetBody (r : t) (b : string) : t := mk (Header r) b.

Definition SetBodyString (r : t) (b : string) : t := mk (Header r) b.

Definition Body (r : t) : string := body r.

Definition withHeader (r : t) (hd : ResponseHeader.t) : t := mk hd (body r).

End Response.

(** A request context: the inbound request and the response under
    construction. *)
Module RequestCtx.

Record t := mk { Request : Request.t; Response : Response.t }.

(** The context the server hands to the handler: the parsed request and
    a reset response, which has no plain header entry (the [Content-Type]
    and [Server] the server presets are among the managed ones). *)
Definition fresh (req : Request.t) : t := mk req Response.AcquireResponse.

Definition Method (ctx : t) : string :=
  RequestHeader.Method (Request.Header (Request ctx)).

Definition RequestURI (ctx : t) : string :=
  RequestHeader.RequestURI (Request.Header (Request ctx)).

Definition SetStatusCode (ctx : t) (sc : Z) : t :=
  mk (Request ctx) (Response.SetStatusCode (Response ctx) sc).

Definition SetBody (ctx : t) (b : string) : t :=
  mk (Request ctx) (Response.SetBody (Response ctx) b).

Definition withResponseHeader (ctx : t) (hd : ResponseHeader.t) : t :=
  mk (Request ctx) (Response.withHeader (Response ctx) hd).

End RequestCtx.

(** What one exchange [client.Do(req, resp)] comes to: a transport error,
    or a response received from the upstream. *)
Inductive DoResult :=
| DoErr (msg : string)
| DoOk (resp : Response.t).

(** The upstream as the proxy sees it: the outcome of the [n]-th exchange
    (counted from 0) for the request sent. *)
Definition Client : Type := nat -> Request.t -> DoResult.

End Fasthttp.


(** ** [main.go] *)

Module Main.

Import Fasthttp.

(** A value handed to [jlog]. *)
Inductive JVal :=
| JStr (s : string)
| JInt (z : Z).

(** What the handler does to the outside world. *)
Inductive Event :=
| EvDo (req : Request.t)                  (* client.Do(req, resp) *)
| EvLog (fields : list (string * JVal))   (* jlog(fields) *)
| EvSleep (d : Z).                        (* time.Sleep(d), d in nanoseconds *)

(** The process environment, read-only after startup, and the shared
    upstream client. *)
Record Env := mkEnv {
  environ : string -> option string;
  client : Client
}.

(** [os.Getenv] and [os.LookupEnv]. *)
Definition Getenv (env : Env) (key : string) : string :=
  match environ env key with
  | Some v => v
  | None => EmptyString
  end.

Definition LookupEnv (env : Env) (key : string) : option string :=
  environ env key.

Definition getEnvInt (env : Env) (key : string) (fallback : Z) : Z :=
  match Strconv.Atoi (Getenv env key) with
  | (_, Some _) => fallback
  | (val, None) => val
  end.

Definition retries (env : Env) : Z := getEnvInt env "RETRIES" 5.

(** The names the header copy of [makeRequest] leaves out (the [case] list
    of its [switch]). *)
Definition dropSet : list string :=
  [ "host"; "connection"; "proxy-connection"; "keep-alive";
    "transfer-encoding"; "upgrade"; "te"; "content-length";
    "accept-encoding"; "proxykey"; "x-request-id" ].

Definition dropped (k : string) : bool :=
  existsb (String.eqb (Strings.ToLower k)) dropSet.

(** The callback of [ctx.Request.Header.VisitAll] in [makeRequest], applied
    to one inbound entry. *)
Definition copyHeader (hd : RequestHeader.t) (kv : argsKV) : RequestHeader.t :=
  if dropped (fst kv) then hd
  else RequestHeader.SetBytesKV hd (fst kv) (snd kv).

(** Lines 129-148 of [makeRequest]: the upstream request built for the
    target [upHost], [upPath]. *)
Definition upstreamRequest (ctx : RequestCtx.t) (upHost upPath : string)
  : Request.t :=
  let req := Request.AcquireRequest in
  let req := Request.withHeader req
               (RequestHeader.SetMethodBytes (Request.Header req)
                  (RequestCtx.Method ctx)) in
  let req := Request.SetRequestURI req ("https://" ++ upHost ++ "/" ++ upPath) in
  let req := Request.withHeader req
               (RequestHeader.SetHost (Request.Header req) upHost) in
  let req := Request.withHeader req
               (RequestHeader.Set_ (Request.Header req) "User-Agent" "RoProxy") in
  let req := Request.withHeader req
               (RequestHeader.Del (Request.Header req) "Roblox-Id") in
  let req := Request.SetBody req
               (Request.Body (RequestCtx.Request ctx)) in
  Request.withHeader req
    (fold_left copyHeader
       (RequestHeader.VisitAll (Request.Header (RequestCtx.Request ctx)))
       (Request.Header req)).

(** [time.Duration(100*attempt) * time.Millisecond]. *)
Definition backoff (attempt : Z) : Z :=
  Int64.mul (Int64.mul 100 attempt) Time.Millisecond.

(** [time.Duration(s)*time.Second + 100*time.Millisecond]. *)
Definition retryAfterDelay (s : Z) : Z :=
  Int64.add (Int64.mul s Time.Second) (100 * Time.Millisecond).

Definition timeoutResponse : Response.t :=
  Response.SetBodyString
    (Response.SetStatusCode Response.AcquireResponse 504) "upstream timeout".

Definition formatResponse : Response.t :=
  Response.SetBodyString
    (Response.SetStatusCode Response.AcquireResponse 400) "URL format invalid.".

(** The sleep of the 429 branch: the events it adds. *)
Definition retryAfterSleep (resp : Response.t) : list Event :=
  let ra := ResponseHeader.Peek (Response.Header resp) "Retry-After" in
  if (0 <? String.length ra)%nat then
    let s := fst (Strconv.Atoi ra) in
    if s >? 0 then [EvSleep (retryAfterDelay s)] else []
  else [].

(** [makeRequest(ctx, attempt)], with [n] exchanges already performed.
    The result is the list of events performed and the response returned;
    the response is [None] when the recursion budget [fuel] ran out before
    the function returned. *)
Fixpoint makeRequest (fuel : nat) (env : Env) (ctx : RequestCtx.t)
  (attempt : Z) (n : nat) : list Event * option Response.t :=
  match fuel with
  | O => ([], None)
  | S fuel' =>
      if attempt >? retries env then ([], Some timeoutResponse)
      else
        let raw := RequestCtx.RequestURI ctx in
        let parts := Strings.SplitN2 (Strings.from1 raw) in
        if (List.length parts <? 2)%nat then ([], Some formatResponse)
        else
          let upHost := nth 0 parts EmptyString in
          let upPath := nth 1 parts EmptyString in
          let req := upstreamRequest ctx upHost upPath in
          match client env n req with
          | DoErr err =>
              let rest :=
                makeRequest fuel' env ctx (Int64.add attempt 1) (S n) in
              (EvDo req
                 :: EvLog [("at", JStr "retry_err"); ("attempt", JInt attempt);
                           ("uri", JStr raw); ("err", JStr err)]
                 :: EvSleep (backoff attempt)
                 :: fst rest,
               snd rest)
          | DoOk resp =>
              let sc := Response.StatusCode resp in
              if sc =? 429 then
                (EvDo req :: retryAfterSleep resp, Some resp)
              else if (sc >=? 500) && (sc <=? 599) then
                let rest :=
                  makeRequest fuel' env ctx (Int64.add attempt 1) (S n) in
                (EvDo req
                   :: EvLog [("at", JStr "retry_5xx"); ("attempt", JInt attempt);
                             ("status", JInt sc); ("uri", JStr raw)]
                   :: EvSleep (backoff attempt)
                   :: fst rest,
                 snd rest)
              else ([EvDo req], Some resp)
          end
  end.

(** The callback of [response.Header.VisitAll] in [requestHandler]. *)
Definition relayHeader (hd : ResponseHeader.t) (kv : argsKV)
  : ResponseHeader.t :=
  ResponseHeader.Set_ hd (fst kv) (snd kv).

(** Lines 100-108 of [requestHandler]: the upstream response copied onto
    the outbound one. *)
Definition relay (ctx : RequestCtx.t) (response : Response.t) : RequestCtx.t :=
  let ctx := RequestCtx.SetStatusCode ctx (Response.StatusCode response) in
  let hd := fold_left relayHeader
              (ResponseHeader.VisitAll (Response.Header response))
              (Response.Header (RequestCtx.Response ctx)) in
  let hd := ResponseHeader.Set_ hd "X-Proxy-Upstream-Status"
              (Strconv.Itoa (Response.StatusCode response)) in
  let hd := ResponseHeader.Set_ hd "Via" "roproxy-lite" in
  let ctx := RequestCtx.withResponseHeader ctx hd in
  RequestCtx.SetBody ctx (Response.Body response).

(** The authentication test of [requestHandler]:
    [ok && string(ctx.Request.Header.Peek("PROXYKEY")) != val]. *)
Definition authFails (env : Env) (ctx : RequestCtx.t) : bool :=
  match LookupEnv env "KEY" with
  | Some val =>
      negb (String.eqb
              (RequestHeader.Peek (Request.Header (RequestCtx.Request ctx))
                 "PROXYKEY")
              val)
  | None => false
  end.

(** The format test of [requestHandler]. *)
Definition formatFails (ctx : RequestCtx.t) : bool :=
  (List.length
     (Strings.SplitN2
        (Strings.from1
           (RequestHeader.RequestURI (Request.Header (RequestCtx.Request ctx)))))
   <? 2)%nat.

(** [requestHandler(ctx)]: the events performed and the context it leaves
    ([None] when [makeRequest] did not return within [fuel]). *)
Definition requestHandler (fuel : nat) (env : Env) (ctx : RequestCtx.t)
  : list Event * option RequestCtx.t :=
  if authFails env ctx then
    ([], Some (RequestCtx.SetBody (RequestCtx.SetStatusCode ctx 407)
                 "Missing or invalid PROXYKEY header."))
  else if formatFails ctx then
    ([], Some (RequestCtx.SetBody (RequestCtx.SetStatusCode ctx 400)
                 "URL format invalid."))
  else
    let r := makeRequest fuel env ctx 1 0 in
    (fst r, option_map (relay ctx) (snd r)).

(** ** Observations on a run *)

Definition isDo (e : Event) : bool :=
  match e with EvDo _ => true | _ => false end.

(** The number of upstream exchanges in a trace. *)
Definition calls (tr : list Event) : nat := List.length (filter isDo tr).

Definition outStatus (ctx : RequestCtx.t) : Z :=
  Response.StatusCode (RequestCtx.Response ctx).

Definition outBody (ctx : RequestCtx.t) : string :=
  Response.Body (RequestCtx.Response ctx).

(** The plain headers of the response under construction: the entries
    [ctx.Response.Header.VisitAll] enumerates under a name that is not one
    of [ResponseHeader.managedNames]. *)
Definition plainHeaders (ctx : RequestCtx.t) : list argsKV :=
  ResponseHeader.h (Response.Header (RequestCtx.Response ctx)).

(** The entries of a header list whose name fasthttp does not manage. *)
Definition plain (kv : argsKV) : bool :=
  negb (ResponseHeader.isManaged (fst kv)).

(** The upstream request [makeRequest] builds for [ctx] (the same at every
    attempt: it depends on the inbound request only). *)
Definition requestOf (ctx : RequestCtx.t) : Request.t :=
  let parts := Strings.SplitN2 (Strings.from1 (RequestCtx.RequestURI ctx)) in
  upstreamRequest ctx (nth 0 parts EmptyString) (nth 1 parts EmptyString).

Definition isLog (e : Event) : bool :=
  match e with EvLog _ => true | _ => false end.

(** A trace without its log lines: the exchanges and the sleeps, in order. *)
Definition actions (tr : list Event) : list Event :=
  filter (fun e => negb (isLog e)) tr.

(** The attempt numbers [a, a+1, ..., a+k-1]. *)
Fixpoint attemptsFrom (a : Z) (k : nat) : list Z :=
  match k with
  | O => []
  | S k' => a :: attemptsFrom (a + 1) k'
  end.

(** One failed attempt, as it shows in [actions]: the exchange, then the
    backoff sleep of that attempt. *)
Definition failedRound (req : Request.t) (a : Z) : list Event :=
  [EvDo req; EvSleep (backoff a)].

Definition is5xx (sc : Z) : bool := (sc >=? 500) && (sc <=? 599).

(** The outcomes after which [makeRequest] calls itself again. *)
Definition retried (d : DoResult) : bool :=
  match d with
  | DoErr _ => true
  | DoOk resp =>
      negb (Response.StatusCode resp =? 429) && is5xx (Response.StatusCode resp)
  end.

(** A header name in the form [normalizeHeaderKey] produces, which is the
    form in which fasthttp's parsers store the names they read. *)
Definition canonical (kv : argsKV) : Prop :=
  normalizeHeaderKey (fst kv) = fst kv.

(** The inbound entries the header copy keeps. *)
Definition kept (kv : argsKV) : bool := negb (dropped (fst kv)).

Definition notUserAgent (kv : argsKV) : bool :=
  negb (String.eqb (fst kv) "User-Agent").

(** [Set] on a bare entry list, for a key already in canonical form. *)
Definition setKV (h : list argsKV) (kv : argsKV) : list argsKV :=
  setArg h (fst kv) (snd kv).

(** The responses [makeRequest] hands back at once, without a sleep. *)
Definition passedThrough (resp : Response.t) : bool :=
  negb (Response.StatusCode resp =? 429)
  && negb (is5xx (Response.StatusCode resp)).

End Main.


(** ** Sample environments, requests and upstreams *)

Module Samples.

Import Fasthttp Main.

Fixpoint lookupVar (vars : list (string * string)) (key : string)
  : option string :=
  match vars with
  | [] => None
  | (k, v) :: t => if String.eqb key k then Some v else lookupVar t key
  end.

(** An environment holding the variables [vars], in front of the upstream
    [c]. *)
Definition envOf (vars : list (string * string)) (c : Client) : Env :=
  mkEnv (lookupVar vars) c.

(** The inbound request [method uri] with the header entries [hs] (as the
    server parsed them) and the body [b]. *)
Definition inbound (method uri : string) (hs : list argsKV) (b : string)
  : Request.t :=
  Request.mk (RequestHeader.mk method uri "proxy.local" hs) b.

Definition response (sc : Z) (hs : list argsKV) (b : string) : Response.t :=
  Response.mk (ResponseHeader.mk sc [] hs) b.

(** An upstream that answers every exchange the same way. *)
Definition always (d : DoResult) : Client := fun _ _ => d.

(** An upstream whose first [k] exchanges fail at the transport level and
    that answers [d] from then on. *)
Definition failsFirst (k : nat) (d : DoResult) : Client :=
  fun n _ => if (n <? k)%nat then DoErr "dial tcp: i/o timeout" else d.

Definition ok200 : Response.t := response 200 [("Content-Type", "text/plain")] "ok".

Definition down503 : Response.t := response 503 [("Server", "nginx")] "down".

Definition getFoo : RequestCtx.t :=
  RequestCtx.fresh (inbound "GET" "/example.com/foo/bar?x=1" [] "").

End Samples.


(** ** Decimal literals

    What a text denotes when read as a decimal integer literal, stated
    without regard to machine ranges; [Strconv.Atoi] is compared with it. *)

Module Literal.

Fixpoint allDigits (s : string) : bool :=
  match s with
  | EmptyString => true
  | String c t => Strconv.is_digit c && allDigits t
  end.

(** The number [s] denotes after the digits that gave [acc]. *)
Fixpoint digitsValue (acc : Z) (s : string) : Z :=
  match s with
  | EmptyString => acc
  | String c t => digitsValue (acc * 10 + Strconv.digit_val c) t
  end.

(** [s] without one leading sign. *)
Definition stripSign (s : string) : string :=
  match s with
  | EmptyString => EmptyString
  | String c t => if Ascii.eqb c "+" || Ascii.eqb c "-" then t else s
  end.

(** The number a [Decimal.uint] denotes after the digits that gave [acc]. *)
Fixpoint uintValue (acc : Z) (d : Decimal.uint) : Z :=
  match d with
  | Decimal.Nil => acc
  | Decimal.D0 d' => uintValue (acc * 10 + 0) d'
  | Decimal.D1 d' => uintValue (acc * 10 + 1) d'
  | Decimal.D2 d' => uintValue (acc * 10 + 2) d'
  | Decimal.D3 d' => uintValue (acc * 10 + 3) d'
  | Decimal.D4 d' => uintValue (acc * 10 + 4) d'
  | Decimal.D5 d' => uintValue (acc * 10 + 5) d'
  | Decimal.D6 d' => uintValue (acc * 10 + 6) d'
  | Decimal.D7 d' => uintValue (acc * 10 + 7) d'
  | Decimal.D8 d' => uintValue (acc * 10 + 8) d'
  | Decimal.D9 d' => uintValue (acc * 10 + 9) d'
  end.

End Literal.


(** ** The closure of [main] around the handler *)

Module Server.

Import Fasthttp Main.

Definition timeout (env : Env) : Z := getEnvInt env "TIMEOUT" 15.

Definition port (env : Env) : string := Getenv env "PORT".

Definition logSlowMs (env : Env) : Z := getEnvInt env "LOG_SLOW_MS" 300.

Definition logErrorsOnly (env : Env) : bool :=
  String.eqb (Getenv env "LOG_ERRORS_ONLY") "true".

(** The fields of the [request_end] log line. *)
Definition requestEnd (ctx : RequestCtx.t) (status durMs : Z) (remote : string)
  : Event :=
  EvLog [("at", JStr "request_end");
         ("method", JStr (RequestCtx.Method ctx));
         ("uri", JStr (RequestCtx.RequestURI ctx));
         ("status", JInt status);
         ("duration", JInt durMs);
         ("remote", JStr remote)].

(** The closure [h] of [main] (lines 31-53).  The two readings of the
    outside world are arguments: [durMs] is
    [time.Since(start).Milliseconds()] and [remote] is
    [ctx.RemoteIP().String()]. *)
Definition h (fuel : nat) (env : Env) (ctx : RequestCtx.t)
  (durMs : Z) (remote : string) : list Event * option RequestCtx.t :=
  let r := requestHandler fuel env ctx in
  match snd r with
  | None => (fst r, None)
  | Some ctx' =>
      let status := Response.StatusCode (RequestCtx.Response ctx') in
      if logErrorsOnly env && (status <? 400) && (durMs <? logSlowMs env)
      then (fst r, Some ctx')
      else if (durMs <? logSlowMs env) && (status <? 400)
      then (fst r, Some ctx')
      else ((fst r ++ [requestEnd ctx' status durMs remote])%list, Some ctx')
  end.

End Server.

(** ** Further observations on a run and on header stores *)

Module Observation.

Import Fasthttp Main.

(** The time a run spends in [time.Sleep], in nanoseconds (a sleep of a
    negative duration returns at once). *)
Fixpoint sleepTotal (tr : list Event) : Z :=
  match tr with
  | [] => 0
  | EvSleep d :: t => Z.max 0 d + sleepTotal t
  | _ :: t => sleepTotal t
  end.

Fixpoint intField (name : string) (fields : list (string * JVal)) : option Z :=
  match fields with
  | [] => None
  | (k, JInt z) :: t => if String.eqb k name then Some z else intField name t
  | _ :: t => intField name t
  end.

(** The [attempt] fields of the log lines of a run, in order. *)
Fixpoint logAttempts (tr : list Event) : list Z :=
  match tr with
  | [] => []
  | EvLog fields :: t =>
      match intField "attempt" fields with
      | Some a => a :: logAttempts t
      | None => logAttempts t
      end
  | _ :: t => logAttempts t
  end.

(** The value of the last entry of [hs] whose name is [key], letter case
    apart. *)
Fixpoint lastValue (key : string) (hs : list argsKV) (found : option string)
  : option string :=
  match hs with
  | [] => found
  | (k, v) :: t =>
      lastValue key t
        (if String.eqb (Strings.ToLower k) (Strings.ToLower key)
         then Some v else found)
  end.

End Observation.


(** ** The earlier revision of [main.go] ([src/unnamed/part_000])

    The same program before the status-aware retry policy: it retries
    transport errors only, without backoff, copies every inbound header and
    then imposes its own [User-Agent] and removes [Roblox-Id].  Its slice
    indexing [url[1]] is unguarded inside [makeRequest]; a run that indexes
    out of range is recorded as [Panicked]. *)

Module Legacy.

Import Fasthttp Main.

Inductive Outcome (A : Type) :=
| Returned (a : A)
| Panicked
| Unfinished.

Arguments Returned {A} a.
Arguments Panicked {A}.
Arguments Unfinished {A}.

Definition mapOutcome {A B : Type} (f : A -> B) (o : Outcome A) : Outcome B :=
  match o with
  | Returned a => Returned (f a)
  | Panicked => Panicked
  | Unfinished => Unfinished
  end.

Definition timeout (env : Env) : Z := getEnvInt env "TIMEOUT" 10.

Definition retries (env : Env) : Z := getEnvInt env "RETRIES" 3.

Definition failResponse : Response.t :=
  Response.SetStatusCode
    (Response.SetBody Response.AcquireResponse
       "Proxy failed to connect. Please try again.")
    500.

(** The callback of the header copy: every inbound entry is set. *)
Definition copyHeader (hd : RequestHeader.t) (kv : argsKV) : RequestHeader.t :=
  RequestHeader.Set_ hd (fst kv) (snd kv).

(** Lines 118-128: the upstream request for the parts [url0], [url1]
    ([SetMethod] is the string twin of [SetMethodBytes]). *)
Definition upstreamRequest (ctx : RequestCtx.t) (url0 url1 : string)
  : Request.t :=
  let req := Request.AcquireRequest in
  let req := Request.withHeader req
               (RequestHeader.SetMethodBytes (Request.Header req)
                  (RequestCtx.Method ctx)) in
  let req := Request.SetRequestURI req ("https://" ++ url0 ++ "/" ++ url1) in
  let req := Request.SetBody req (Request.Body (RequestCtx.Request ctx)) in
  let req := Request.withHeader req
               (fold_left copyHeader
                  (RequestHeader.VisitAll
                     (Request.Header (RequestCtx.Request ctx)))
                  (Request.Header req)) in
  let req := Request.withHeader req
               (RequestHeader.Set_ (Request.Header req) "User-Agent" "RoProxy") in
  Request.withHeader req (RequestHeader.Del (Request.Header req) "Roblox-Id").

Fixpoint makeRequest (fuel : nat) (env : Env) (ctx : RequestCtx.t)
  (attempt : Z) (n : nat) : list Event * Outcome Response.t :=
  match fuel with
  | O => ([], Unfinished)
  | S fuel' =>
      if attempt >? retries env then ([], Returned failResponse)
      else
        let url :=
          Strings.SplitN2
            (Strings.from1
               (RequestHeader.RequestURI
                  (Request.Header (RequestCtx.Request ctx)))) in
        match nth_error url 0, nth_error url 1 with
        | Some url0, Some url1 =>
            let req := upstreamRequest ctx url0 url1 in
            match client env n req with
            | DoErr err =>
                let rest :=
                  makeRequest fuel' env ctx (Int64.add attempt 1) (S n) in
                (EvDo req
                   :: EvLog [("at", JStr "retry"); ("attempt", JInt attempt);
                             ("max", JInt (retries env));
                             ("method", JStr (RequestCtx.Method ctx));
                             ("uri", JStr (RequestCtx.RequestURI ctx));
                             ("error", JStr err)]
                   :: fst rest,
                 snd rest)
            | DoOk resp => ([EvDo req], Returned resp)
            end
        | _, _ => ([], Panicked)
        end
  end.

(** Lines 101-106 of the handler: body, status, then the headers. *)
Definition relay (ctx : RequestCtx.t) (response : Response.t) : RequestCtx.t :=
  let ctx := RequestCtx.SetBody ctx (Response.Body response) in
  let ctx := RequestCtx.SetStatusCode ctx (Response.StatusCode response) in
  RequestCtx.withResponseHeader ctx
    (fold_left relayHeader
       (ResponseHeader.VisitAll (Response.Header response))
       (Response.Header (RequestCtx.Response ctx))).

Definition requestHandler (fuel : nat) (env : Env) (ctx : RequestCtx.t)
  : list Event * Outcome RequestCtx.t :=
  if authFails env ctx then
    ([], Returned (RequestCtx.SetBody (RequestCtx.SetStatusCode ctx 407)
                     "Missing or invalid PROXYKEY header."))
  else if formatFails ctx then
    ([], Returned (RequestCtx.SetBody (RequestCtx.SetStatusCode ctx 400)
                     "URL format invalid."))
  else
    let r := makeRequest fuel env ctx 1 0 in
    (fst r, mapOutcome (relay ctx) (snd r)).

(** The request the earlier revision sends for [ctx]. *)
Definition requestOf (ctx : RequestCtx.t) : Request.t :=
  let url := Strings.SplitN2 (Strings.from1 (RequestCtx.RequestURI ctx)) in
  upstreamRequest ctx (nth 0 url EmptyString) (nth 1 url EmptyString).

Definition isSleep (e : Event) : bool :=
  match e with EvSleep _ => true | _ => false end.

End Legacy.


(** * Properties *)

Import Fasthttp Main.

(** ** Arithmetic of the machine integers *)

Lemma wrap64_range (z : Z) : Int64.in_range (Int64.wrap64 z).
Proof.
  unfold Int64.in_range, Int64.wrap64, Int64.min_int, Int64.max_int.
  pose proof (Z.mod_pos_bound (z + 2 ^ 63) (2 ^ 64) ltac:(lia)). lia.
Qed.

Lemma wrap64_small (z : Z) : Int64.in_range z -> Int64.wrap64 z = z.
Proof.
  unfold Int64.in_range, Int64.wrap64, Int64.min_int, Int64.max_int.
  intros H. rewrite Z.mod_small by lia. lia.
Qed.

Lemma add_1_small (a : Z) :
  Int64.min_int <= a < Int64.max_int -> Int64.add a 1 = a + 1.
Proof.
  intros H. unfold Int64.add. apply wrap64_small.
  unfold Int64.in_range, Int64.min_int, Int64.max_int in *. lia.
Qed.

(** The linear backoff is [100ms * attempt] as long as that many nanoseconds
    fit a 64-bit duration. *)
Lemma backoff_small (a : Z) :
  0 <= a <= 92233720368 -> backoff a = 100 * Time.Millisecond * a.
Proof.
  intros H. unfold backoff, Int64.mul, Time.Millisecond.
  rewrite (wrap64_small (100 * a)).
  - rewrite wrap64_small; [lia|].
    unfold Int64.in_range, Int64.min_int, Int64.max_int. lia.
  - unfold Int64.in_range, Int64.min_int, Int64.max_int. lia.
Qed.

Lemma retryAfterDelay_small (s : Z) :
  0 <= s <= 9223372036 ->
  retryAfterDelay s = s * Time.Second + 100 * Time.Millisecond.
Proof.
  intros H. unfold retryAfterDelay, Int64.add, Int64.mul, Time.Second,
    Time.Millisecond.
  rewrite (wrap64_small (s * 1000000000)).
  - apply wrap64_small.
    unfold Int64.in_range, Int64.min_int, Int64.max_int. lia.
  - unfold Int64.in_range, Int64.min_int, Int64.max_int. lia.
Qed.

(** ** [strconv.Atoi] answers a 64-bit integer *)

Lemma parseUint_bounds (s : string) : forall n,
  0 <= n <= Strconv.maxUint64 ->
  0 <= fst (Strconv.parseUint n s) <= Strconv.maxUint64.
Proof.
  induction s as [|c t IH]; intros n Hn; cbn [Strconv.parseUint fst];
    [exact Hn|].
  destruct (Strconv.is_digit c) eqn:Hd; cbn [fst].
  - destruct (n >=? Strconv.maxUint64 / 10 + 1) eqn:Hc; cbn [fst].
    + unfold Strconv.maxUint64; lia.
    + destruct (n * 10 + Strconv.digit_val c >? Strconv.maxUint64) eqn:Ho;
        cbn [fst].
      * unfold Strconv.maxUint64; lia.
      * apply IH. split; [|lia].
        unfold Strconv.is_digit in Hd. unfold Strconv.digit_val.
        apply andb_true_iff in Hd. destruct Hd as [Hd _].
        apply Nat.leb_le in Hd. lia.
  - unfold Strconv.maxUint64; lia.
Qed.

Lemma Atoi_range (s : string) : Int64.in_range (fst (Strconv.Atoi s)).
Proof.
  assert (H0 : Int64.in_range 0)
    by (unfold Int64.in_range, Int64.min_int, Int64.max_int; lia).
  unfold Strconv.Atoi, Strconv.ParseInt.
  destruct s as [|c t]; [exact H0|].
  set (neg := Ascii.eqb c "-").
  set (digits := if Ascii.eqb c "+" || neg then t else String c t).
  destruct digits as [|d ds] eqn:Hdig; [exact H0|].
  pose proof (parseUint_bounds (String d ds) 0
                ltac:(unfold Strconv.maxUint64; lia)) as Hb.
  destruct (Strconv.parseUint 0 (String d ds)) as [un e]. simpl in Hb.
  unfold Strconv.maxUint64 in Hb.
  assert (Hgoal : Int64.in_range
            (fst (if negb neg && (un >=? 2 ^ 63)
                  then (2 ^ 63 - 1, Some Strconv.ErrRange)
                  else if neg && (un >? 2 ^ 63)
                       then (- 2 ^ 63, Some Strconv.ErrRange)
                       else (if neg then - un else un, None)))).
  { unfold Int64.in_range, Int64.min_int, Int64.max_int.
    destruct neg; cbn [negb andb].
    - destruct (un >? 2 ^ 63) eqn:Hc; cbn [fst]; lia.
    - destruct (un >=? 2 ^ 63) eqn:Hc; cbn [fst]; lia. }
  destruct e as [[|]|]; [exact H0 | exact Hgoal | exact Hgoal].
Qed.

Lemma retries_in_range (env : Env) : Int64.in_range (retries env).
Proof.
  unfold retries, getEnvInt.
  pose proof (Atoi_range (Getenv env "RETRIES")) as H.
  destruct (Strconv.Atoi (Getenv env "RETRIES")) as [v [e|]]; simpl in H.
  - unfold Int64.in_range, Int64.min_int, Int64.max_int. lia.
  - exact H.
Qed.

(** ** The request-target and its split *)

Lemma RequestURI_nonempty (ctx : RequestCtx.t) :
  RequestCtx.RequestURI ctx <> EmptyString.
Proof.
  unfold RequestCtx.RequestURI, RequestHeader.RequestURI.
  destruct (RequestHeader.requestURI _); discriminate.
Qed.

Lemma cut_none_iff (s : string) :
  Strings.cut s = None <-> Strings.has_slash s = false.
Proof.
  induction s as [|c t IH]; simpl; [tauto|].
  destruct (Ascii.eqb c "/"); simpl.
  - split; discriminate.
  - rewrite <- IH. destruct (Strings.cut t) as [[a b]|]; split; intros H;
      try discriminate; reflexivity.
Qed.

(** [SplitN] answers fewer than two parts exactly when there is no ['/']. *)
Lemma SplitN2_short (s : string) :
  (List.length (Strings.SplitN2 s) <? 2)%nat = negb (Strings.has_slash s).
Proof.
  unfold Strings.SplitN2.
  destruct (Strings.cut s) as [[a b]|] eqn:Hc.
  - destruct (Strings.has_slash s) eqn:Hs; [reflexivity|].
    apply cut_none_iff in Hs. congruence.
  - apply cut_none_iff in Hc. rewrite Hc. reflexivity.
Qed.

Lemma cut_app (host rest : string) :
  Strings.has_slash host = false ->
  Strings.cut (host ++ String "/" rest) = Some (host, rest).
Proof.
  induction host as [|c t IH]; simpl; intros H; [reflexivity|].
  apply orb_false_iff in H. destruct H as [Hc Ht].
  rewrite Hc. rewrite (IH Ht). reflexivity.
Qed.

Lemma SplitN2_app (host rest : string) :
  Strings.has_slash host = false ->
  Strings.SplitN2 (host ++ "/" ++ rest) = [host; rest].
Proof.
  intros H. unfold Strings.SplitN2.
  change (host ++ "/" ++ rest) with (host ++ String "/" rest).
  rewrite (cut_app _ _ H). reflexivity.
Qed.

(** ** The retry engine, one call at a time *)

Section RetryEngine.

Variable env : Env.
Variable ctx : RequestCtx.t.
Hypothesis well_formed : formatFails ctx = false.

Let parts_ok :
  (List.length
     (Strings.SplitN2 (Strings.from1 (RequestCtx.RequestURI ctx))) <? 2)%nat
  = false.
Proof. exact well_formed. Qed.

Lemma makeRequest_exhausted (fuel : nat) (attempt : Z) (n : nat) :
  attempt > retries env ->
  makeRequest (S fuel) env ctx attempt n = ([], Some timeoutResponse).
Proof.
  intros H. cbn [makeRequest].
  destruct (attempt >? retries env) eqn:E; [reflexivity | lia].
Qed.

Lemma makeRequest_retried (fuel : nat) (attempt : Z) (n : nat) :
  attempt <= retries env ->
  retried (client env n (requestOf ctx)) = true ->
  let rest := makeRequest fuel env ctx (Int64.add attempt 1) (S n) in
  actions (fst (makeRequest (S fuel) env ctx attempt n))
    = (failedRound (requestOf ctx) attempt ++ actions (fst rest))%list
  /\ calls (fst (makeRequest (S fuel) env ctx attempt n)) = S (calls (fst rest))
  /\ snd (makeRequest (S fuel) env ctx attempt n) = snd rest.
Proof.
  intros Ha Hr. cbn [makeRequest].
  destruct (attempt >? retries env) eqn:E; [lia|].
  rewrite parts_ok. fold (requestOf ctx).
  destruct (client env n (requestOf ctx)) as [msg|resp]; cbn [retried] in Hr.
  - repeat split.
  - apply andb_true_iff in Hr. destruct Hr as [H429 H5].
    apply negb_true_iff in H429. rewrite H429.
    unfold is5xx in H5. rewrite H5. repeat split.
Qed.

Lemma makeRequest_passed (fuel : nat) (attempt : Z) (n : nat)
  (resp : Response.t) :
  attempt <= retries env ->
  client env n (requestOf ctx) = DoOk resp ->
  passedThrough resp = true ->
  makeRequest (S fuel) env ctx attempt n = ([EvDo (requestOf ctx)], Some resp).
Proof.
  intros Ha Hc Hp. cbn [makeRequest].
  destruct (attempt >? retries env) eqn:E; [lia|].
  rewrite parts_ok. fold (requestOf ctx). rewrite Hc.
  apply andb_true_iff in Hp. destruct Hp as [H429 H5].
  apply negb_true_iff in H429. apply negb_true_iff in H5.
  rewrite H429. unfold is5xx in H5. rewrite H5. reflexivity.
Qed.

Lemma makeRequest_429 (fuel : nat) (attempt : Z) (n : nat)
  (resp : Response.t) :
  attempt <= retries env ->
  client env n (requestOf ctx) = DoOk resp ->
  Response.StatusCode resp = 429 ->
  makeRequest (S fuel) env ctx attempt n
    = (EvDo (requestOf ctx) :: retryAfterSleep resp, Some resp).
Proof.
  intros Ha Hc Hs. cbn [makeRequest].
  destruct (attempt >? retries env) eqn:E; [lia|].
  rewrite parts_ok. fold (requestOf ctx). rewrite Hc, Hs. reflexivity.
Qed.

(** [k] retried attempts in a row, with the budget exhausted by them, end in
    the synthetic 504. *)
Lemma retry_exhausts (k : nat) : forall (fuel : nat) (attempt : Z) (n : nat),
  Int64.min_int <= attempt ->
  retries env < Int64.max_int ->
  Z.of_nat k = retries env + 1 - attempt ->
  (k < fuel)%nat ->
  (forall i, (i < k)%nat -> retried (client env (n + i)%nat (requestOf ctx)) = true) ->
  let r := makeRequest fuel env ctx attempt n in
  snd r = Some timeoutResponse
  /\ calls (fst r) = k
  /\ actions (fst r)
     = flat_map (failedRound (requestOf ctx)) (attemptsFrom attempt k).
Proof.
  induction k as [|k IH]; intros fuel attempt n Hmin Hmax Hk Hfuel Hall.
  - destruct fuel as [|fuel]; [lia|].
    rewrite makeRequest_exhausted by lia. repeat split.
  - destruct fuel as [|fuel]; [lia|].
    assert (Hle : attempt <= retries env) by lia.
    pose proof (Hall 0%nat ltac:(lia)) as H0. rewrite Nat.add_0_r in H0.
    destruct (makeRequest_retried fuel attempt n Hle H0) as (Ha & Hc & Hs).
    rewrite add_1_small in Ha, Hc, Hs by lia.
    destruct (IH fuel (attempt + 1) (S n)) as (Is & Ic & Ia);
      try lia.
    { intros i Hi. replace (S n + i)%nat with (n + S i)%nat by lia.
      apply Hall. lia. }
    cbv zeta. rewrite Hs, Hc, Ha, Is, Ic, Ia. repeat split.
Qed.

(** [k] retried attempts in a row followed, within the budget, by a
    response that is passed through. *)
Lemma retry_then_passed (k : nat) (resp : Response.t) :
  forall (fuel : nat) (attempt : Z) (n : nat),
  Int64.min_int <= attempt ->
  attempt + Z.of_nat k <= retries env ->
  (k < fuel)%nat ->
  (forall i, (i < k)%nat -> retried (client env (n + i)%nat (requestOf ctx)) = true) ->
  client env (n + k)%nat (requestOf ctx) = DoOk resp ->
  passedThrough resp = true ->
  let r := makeRequest fuel env ctx attempt n in
  snd r = Some resp
  /\ calls (fst r) = S k
  /\ actions (fst r)
     = (flat_map (failedRound (requestOf ctx)) (attemptsFrom attempt k)
        ++ [EvDo (requestOf ctx)])%list.
Proof.
  pose proof (retries_in_range env) as Hrange.
  unfold Int64.in_range in Hrange.
  induction k as [|k IH]; intros fuel attempt n Hmin Hk Hfuel Hall Hc Hp.
  - destruct fuel as [|fuel]; [lia|].
    rewrite Nat.add_0_r in Hc.
    rewrite (makeRequest_passed fuel attempt n resp) by (try lia; assumption).
    repeat split.
  - destruct fuel as [|fuel]; [lia|].
    assert (Hle : attempt <= retries env) by lia.
    pose proof (Hall 0%nat ltac:(lia)) as H0. rewrite Nat.add_0_r in H0.
    destruct (makeRequest_retried fuel attempt n Hle H0) as (Ha & Hcs & Hs).
    rewrite add_1_small in Ha, Hcs, Hs by lia.
    destruct (IH fuel (attempt + 1) (S n)) as (Is & Ic & Ia);
      try lia; try assumption.
    { intros i Hi. replace (S n + i)%nat with (n + S i)%nat by lia.
      apply Hall. lia. }
    { replace (S n + k)%nat with (n + S k)%nat by lia. exact Hc. }
    cbv zeta. rewrite Hs, Hcs, Ha, Is, Ic, Ia. repeat split.
Qed.

(** Whatever the upstream does, [makeRequest] returns, after at most
    [retries + 1 - attempt] exchanges, unless [retries] is the largest
    integer. *)
Lemma makeRequest_returns (fuel : nat) : forall (attempt : Z) (n : nat),
  Int64.min_int <= attempt ->
  retries env < Int64.max_int ->
  (Z.to_nat (retries env + 1 - attempt) < fuel)%nat ->
  let r := makeRequest fuel env ctx attempt n in
  (exists resp, snd r = Some resp)
  /\ (calls (fst r) <= Z.to_nat (retries env + 1 - attempt))%nat.
Proof.
  induction fuel as [|fuel IH]; intros attempt n Hmin Hmax Hfuel; [lia|].
  destruct (Z_gt_le_dec attempt (retries env)) as [Hgt|Hle].
  - rewrite makeRequest_exhausted by exact Hgt.
    cbn. split; [eauto | lia].
  - destruct (retried (client env n (requestOf ctx))) eqn:Hr.
    + destruct (makeRequest_retried fuel attempt n Hle Hr) as (_ & Hc & Hs).
      rewrite add_1_small in Hc, Hs by lia.
      destruct (IH (attempt + 1) (S n)) as (Ir & Ic); try lia.
      cbv zeta. rewrite Hs, Hc. split; [exact Ir | lia].
    + destruct (client env n (requestOf ctx)) as [msg|resp] eqn:Hd;
        [discriminate Hr|].
      cbn [retried] in Hr.
      destruct (Response.StatusCode resp =? 429) eqn:H429.
      * apply Z.eqb_eq in H429.
        rewrite (makeRequest_429 fuel attempt n resp Hle Hd H429).
        cbn [fst snd]. split; [eauto|].
        unfold calls. cbn [filter isDo List.length].
        assert (Hno : filter isDo (retryAfterSleep resp) = []).
        { unfold retryAfterSleep.
          destruct (0 <? String.length _)%nat; [|reflexivity].
          destruct (fst _ >? 0); reflexivity. }
        rewrite Hno. cbn. lia.
      * rewrite (makeRequest_passed fuel attempt n resp Hle Hd).
        -- cbn. split; [eauto | lia].
        -- unfold passedThrough. rewrite H429.
           cbn [negb andb] in Hr |- *. rewrite Hr. reflexivity.
Qed.

End RetryEngine.

(** ** The handler around the retry engine *)

Lemma requestHandler_proxied (fuel : nat) (env : Env) (ctx : RequestCtx.t) :
  authFails env ctx = false ->
  formatFails ctx = false ->
  requestHandler fuel env ctx
    = (fst (makeRequest fuel env ctx 1 0),
       option_map (relay ctx) (snd (makeRequest fuel env ctx 1 0))).
Proof.
  intros Ha Hf. unfold requestHandler. rewrite Ha, Hf. reflexivity.
Qed.

Lemma Set_statusCode (hd : ResponseHeader.t) (key value : string) :
  ResponseHeader.statusCode (ResponseHeader.Set_ hd key value)
  = ResponseHeader.statusCode hd.
Proof.
  unfold ResponseHeader.Set_.
  destruct (ResponseHeader.isManaged (normalizeHeaderKey key)); reflexivity.
Qed.

Lemma relayHeaders_statusCode (l : list argsKV) : forall hd,
  ResponseHeader.statusCode (fold_left relayHeader l hd)
    = ResponseHeader.statusCode hd.
Proof.
  induction l as [|kv l IH]; intros hd; cbn [fold_left]; [reflexivity|].
  rewrite IH. apply Set_statusCode.
Qed.

Lemma StatusCode_nonzero (r : Response.t) : Response.StatusCode r <> 0.
Proof.
  unfold Response.StatusCode, ResponseHeader.StatusCode.
  destruct (ResponseHeader.statusCode (Response.Header r) =? 0) eqn:E;
    [discriminate|]. apply Z.eqb_neq in E. exact E.
Qed.

Lemma outStatus_relay (ctx : RequestCtx.t) (r : Response.t) :
  outStatus (relay ctx r) = Response.StatusCode r.
Proof.
  unfold outStatus, relay, RequestCtx.SetBody, RequestCtx.withResponseHeader,
    Response.withHeader, Response.SetBody.
  cbn [RequestCtx.Response Response.Header].
  unfold Response.StatusCode at 1, ResponseHeader.StatusCode at 1.
  cbn [Response.Header].
  rewrite !Set_statusCode, relayHeaders_statusCode.
  cbn [RequestCtx.SetStatusCode RequestCtx.Response Response.SetStatusCode
       Response.Header ResponseHeader.SetStatusCode ResponseHeader.statusCode].
  pose proof (StatusCode_nonzero r) as H. apply Z.eqb_neq in H.
  rewrite H. reflexivity.
Qed.

Lemma outBody_relay (ctx : RequestCtx.t) (r : Response.t) :
  outBody (relay ctx r) = Response.Body r.
Proof. reflexivity. Qed.

Lemma is5xx_retried (resp : Response.t) :
  is5xx (Response.StatusCode resp) = true -> retried (DoOk resp) = true.
Proof.
  intros H. cbn [retried]. rewrite H.
  unfold is5xx in H. apply andb_true_iff in H. destruct H as [H1 H2].
  destruct (Response.StatusCode resp =? 429) eqn:E; [|reflexivity].
  apply Z.eqb_eq in E. lia.
Qed.

Lemma retryAfterSleep_no_calls (resp : Response.t) :
  filter isDo (retryAfterSleep resp) = [].
Proof.
  unfold retryAfterSleep.
  destruct (0 <? String.length _)%nat; [|reflexivity].
  destruct (fst _ >? 0); reflexivity.
Qed.

(** A request-target without a second segment never reaches the upstream:
    [makeRequest] answers at once, whatever the attempt. *)
Lemma makeRequest_malformed (fuel : nat) (env : Env) (ctx : RequestCtx.t)
  (attempt : Z) (n : nat) :
  formatFails ctx = true ->
  makeRequest (S fuel) env ctx attempt n
    = ([], Some (if attempt >? retries env then timeoutResponse
                 else formatResponse)).
Proof.
  intros H. cbn [makeRequest].
  destruct (attempt >? retries env); [reflexivity|].
  unfold formatFails in H. unfold RequestCtx.RequestURI. rewrite H.
  reflexivity.
Qed.

(** ** Retry exhaustion (claims C1, C2, C9) *)

(** C1, as the spec states it, fails: with the default [RETRIES] (5) and an
    upstream that answers 503 to every exchange, the handler performs five
    exchanges and then relays status 504, not the upstream's 503. *)
Lemma C1_all_503_relays_504 :
  let env := Samples.envOf [] (Samples.always (DoOk Samples.down503)) in
  let r := requestHandler 6 env Samples.getFoo in
  Response.StatusCode Samples.down503 = 503
  /\ calls (fst r) = 5%nat
  /\ option_map outStatus (snd r) = Some 504
  /\ option_map outBody (snd r) = Some "upstream timeout"
  /\ option_map outStatus (snd r) <> Some 503.
Proof.
  vm_compute. repeat split; discriminate.
Qed.

(** C1, amended: when every upstream attempt returns a 5xx status, the
    handler relays the synthetic 504 "upstream timeout" response (each 5xx
    response is discarded before the next attempt), after exactly [retries]
    upstream exchanges (none when [retries] is below 1). *)
Theorem C1_all_5xx_ends_in_synthetic_504
  (env : Env) (ctx : RequestCtx.t) (fuel : nat) :
  authFails env ctx = false ->
  formatFails ctx = false ->
  retries env < Int64.max_int ->
  (forall n, exists resp,
      client env n (requestOf ctx) = DoOk resp
      /\ is5xx (Response.StatusCode resp) = true) ->
  (Z.to_nat (retries env) < fuel)%nat ->
  let r := requestHandler fuel env ctx in
  exists out,
    snd r = Some out
    /\ outStatus out = 504
    /\ outBody out = "upstream timeout"
    /\ calls (fst r) = Z.to_nat (retries env).
Proof.
  intros Hauth Hfmt Hmax Hall Hfuel.
  rewrite (requestHandler_proxied fuel env ctx Hauth Hfmt). cbn [fst snd].
  assert (Hend : snd (makeRequest fuel env ctx 1 0) = Some timeoutResponse
                 /\ calls (fst (makeRequest fuel env ctx 1 0))
                    = Z.to_nat (retries env)).
  { destruct (Z_lt_le_dec (retries env) 1) as [Hlt|Hge].
    - destruct fuel as [|fuel]; [lia|].
      rewrite makeRequest_exhausted by (assumption || lia).
      replace (Z.to_nat (retries env)) with 0%nat by lia. split; reflexivity.
    - destruct (retry_exhausts env ctx Hfmt (Z.to_nat (retries env)) fuel 1 0)
        as (Hs & Hc & _); try (unfold Int64.min_int; lia).
      + intros i _. destruct (Hall (0 + i)%nat) as (resp & Hd & H5).
        rewrite Hd. apply is5xx_retried. exact H5.
      + split; assumption. }
  destruct Hend as [Hs Hc]. rewrite Hs.
  exists (relay ctx timeoutResponse). cbn [option_map].
  rewrite outStatus_relay. repeat split. exact Hc.
Qed.

Lemma C1_all_5xx_ends_in_synthetic_504_witness :
  let env := Samples.envOf [] (Samples.always (DoOk Samples.down503)) in
  let r := requestHandler 6 env Samples.getFoo in
  exists out,
    snd r = Some out
    /\ outStatus out = 504
    /\ outBody out = "upstream timeout"
    /\ calls (fst r) = Z.to_nat (retries env).
Proof.
  intros env.
  apply (C1_all_5xx_ends_in_synthetic_504 env Samples.getFoo 6).
  - reflexivity.
  - reflexivity.
  - vm_compute. reflexivity.
  - intros n. exists Samples.down503. split; reflexivity.
  - vm_compute. lia.
Defined.

(** C2, as the spec states it, fails at N = maxAttempts: with the default
    [RETRIES] (5) and an upstream whose first five exchanges fail at the
    transport level and that would answer 200 to a sixth, the handler stops
    after five exchanges and relays the synthetic 504; the upstream's
    eventual success is never asked for. *)
Lemma C2_five_failures_of_five_relay_504 :
  let env := Samples.envOf [] (Samples.failsFirst 5 (DoOk Samples.ok200)) in
  let r := requestHandler 7 env Samples.getFoo in
  (5 <= retries env)
  /\ client env 5%nat (requestOf Samples.getFoo) = DoOk Samples.ok200
  /\ calls (fst r) = 5%nat
  /\ option_map outStatus (snd r) = Some 504
  /\ option_map outStatus (snd r)
     <> Some (Response.StatusCode Samples.ok200).
Proof.
  vm_compute. repeat split; discriminate.
Qed.

(** C2, amended: let the first [N] upstream exchanges fail at the transport
    level.  When [N < retries] and the next exchange is answered by a
    response that is neither 429 nor 5xx, that response is the one relayed,
    after [N + 1] exchanges.  When [N >= retries] (and [retries] is not the
    largest integer) the relayed response is 504 with body "upstream
    timeout", after exactly [retries] exchanges.  In both cases every failed
    attempt [a] is followed, before the next exchange, by one sleep of
    [time.Duration(100*a) * time.Millisecond], which is 100 ms times [a]
    (linear, no jitter) for every [a] up to 92233720368. *)
Theorem C2_transport_failures
  (env : Env) (ctx : RequestCtx.t) (fuel N : nat) :
  authFails env ctx = false ->
  formatFails ctx = false ->
  (forall i, (i < N)%nat ->
     exists msg, client env i (requestOf ctx) = DoErr msg) ->
  let r := requestHandler fuel env ctx in
  (forall resp,
      Z.of_nat N < retries env ->
      client env N (requestOf ctx) = DoOk resp ->
      passedThrough resp = true ->
      (N < fuel)%nat ->
      snd r = Some (relay ctx resp)
      /\ outStatus (relay ctx resp) = Response.StatusCode resp
      /\ outBody (relay ctx resp) = Response.Body resp
      /\ calls (fst r) = S N
      /\ actions (fst r)
         = (flat_map (failedRound (requestOf ctx)) (attemptsFrom 1 N)
            ++ [EvDo (requestOf ctx)])%list)
  /\ (retries env <= Z.of_nat N ->
      retries env < Int64.max_int ->
      (Z.to_nat (retries env) < fuel)%nat ->
      exists out,
        snd r = Some out
        /\ outStatus out = 504
        /\ outBody out = "upstream timeout"
        /\ calls (fst r) = Z.to_nat (retries env)
        /\ actions (fst r)
           = flat_map (failedRound (requestOf ctx))
               (attemptsFrom 1 (Z.to_nat (retries env))))
  /\ (forall a, 0 <= a <= 92233720368 ->
      failedRound (requestOf ctx) a
      = [EvDo (requestOf ctx); EvSleep (100 * Time.Millisecond * a)]).
Proof.
  intros Hauth Hfmt Hfail.
  rewrite (requestHandler_proxied fuel env ctx Hauth Hfmt). cbn [fst snd].
  assert (Hret : forall k i, (k <= N)%nat -> (i < k)%nat ->
            retried (client env (0 + i)%nat (requestOf ctx)) = true).
  { intros k i Hk Hi. destruct (Hfail i ltac:(lia)) as [msg Hm].
    cbn [Nat.add]. rewrite Hm. reflexivity. }
  split; [|split].
  - intros resp HN Hd Hp Hfuel.
    destruct (retry_then_passed env ctx Hfmt N resp fuel 1 0)
      as (Hs & Hc & Ha); try assumption; try (unfold Int64.min_int; lia).
    { intros i Hi. apply (Hret N); lia. }
    rewrite Hs, Hc, Ha, outStatus_relay. repeat split.
  - intros HN Hmax Hfuel.
    destruct (Z_lt_le_dec (retries env) 1) as [Hlt|Hge].
    + destruct fuel as [|fuel']; [lia|].
      rewrite makeRequest_exhausted by (assumption || lia).
      replace (Z.to_nat (retries env)) with 0%nat by lia.
      exists (relay ctx timeoutResponse). cbn [option_map fst snd].
      rewrite outStatus_relay. repeat split.
    + destruct (retry_exhausts env ctx Hfmt (Z.to_nat (retries env)) fuel 1 0)
        as (Hs & Hc & Ha); try (unfold Int64.min_int; lia).
      { intros i Hi. apply (Hret N); lia. }
      rewrite Hs, Hc, Ha.
      exists (relay ctx timeoutResponse). cbn [option_map].
      rewrite outStatus_relay. repeat split.
  - intros a Ha. unfold failedRound. rewrite backoff_small by exact Ha.
    reflexivity.
Qed.

Lemma C2_transport_failures_witness :
  let env := Samples.envOf [] (Samples.failsFirst 2 (DoOk Samples.ok200)) in
  let r := requestHandler 4 env Samples.getFoo in
  snd r = Some (relay Samples.getFoo Samples.ok200)
  /\ outStatus (relay Samples.getFoo Samples.ok200) = 200
  /\ calls (fst r) = 3%nat.
Proof.
  intros env.
  destruct (C2_transport_failures env Samples.getFoo 4 2) as (H & _ & _).
  - reflexivity.
  - reflexivity.
  - intros i Hi. exists "dial tcp: i/o timeout".
    destruct i as [|[|i]]; [reflexivity | reflexivity | lia].
  - destruct (H Samples.ok200) as (Hs & Ho & _ & Hc & _).
    + vm_compute. reflexivity.
    + reflexivity.
    + reflexivity.
    + lia.
    + repeat split; assumption.
Defined.

(** C9, as the spec states it, fails for the largest value [RETRIES] can
    take: no attempt number exceeds it, the increment of the attempt counter
    wraps around, and with an upstream that never answers the recursion does
    not come to an end, whatever the budget. *)
Lemma C9_largest_retries_never_returns :
  let env := Samples.envOf [("RETRIES", "9223372036854775807")]
               (Samples.always (DoErr "connection refused")) in
  retries env = Int64.max_int
  /\ Int64.add Int64.max_int 1 = Int64.min_int
  /\ ~ (exists fuel resp,
          snd (makeRequest fuel env Samples.getFoo 1 0) = Some resp).
Proof.
  intros env.
  assert (Hr : retries env = Int64.max_int) by (vm_compute; reflexivity).
  split; [exact Hr|]. split; [vm_compute; reflexivity|].
  assert (Hnone : forall fuel attempt n, Int64.in_range attempt ->
            snd (makeRequest fuel env Samples.getFoo attempt n) = None).
  { induction fuel as [|fuel IH]; intros attempt n Hin; [reflexivity|].
    assert (Hle : attempt <= retries env)
      by (rewrite Hr; unfold Int64.in_range in Hin; lia).
    destruct (makeRequest_retried env Samples.getFoo eq_refl fuel attempt n
                Hle eq_refl) as (_ & _ & Hs).
    rewrite Hs. apply IH. apply wrap64_range. }
  intros (fuel & resp & H).
  rewrite Hnone in H; [discriminate|].
  unfold Int64.in_range, Int64.min_int, Int64.max_int. lia.
Qed.

(** C9, amended: unless [retries] is the largest 64-bit integer, the retry
    recursion of [makeRequest] is total: from any attempt number it returns a
    response after at most [retries + 1 - attempt] upstream exchanges; every
    recursive call is made at [attempt + 1]; an attempt number above
    [retries] returns the synthetic 504 at once.  In particular, when
    [retries] is below 1, every authenticated well-formed request is
    answered 504 "upstream timeout" with no upstream exchange. *)
Theorem C9_retry_recursion_total (env : Env) (ctx : RequestCtx.t) :
  retries env < Int64.max_int ->
  (forall fuel attempt n,
      Int64.in_range attempt ->
      (Z.to_nat (retries env + 1 - attempt) < fuel)%nat ->
      let r := makeRequest fuel env ctx attempt n in
      (exists resp, snd r = Some resp)
      /\ (calls (fst r) <= Z.to_nat (retries env + 1 - attempt))%nat)
  /\ (forall fuel attempt n,
      Int64.in_range attempt ->
      attempt <= retries env ->
      formatFails ctx = false ->
      retried (client env n (requestOf ctx)) = true ->
      Int64.add attempt 1 = attempt + 1
      /\ snd (makeRequest (S fuel) env ctx attempt n)
         = snd (makeRequest fuel env ctx (attempt + 1) (S n))
      /\ calls (fst (makeRequest (S fuel) env ctx attempt n))
         = S (calls (fst (makeRequest fuel env ctx (attempt + 1) (S n)))))
  /\ (forall fuel attempt n,
      attempt > retries env ->
      makeRequest (S fuel) env ctx attempt n = ([], Some timeoutResponse))
  /\ (forall fuel,
      retries env < 1 ->
      authFails env ctx = false ->
      formatFails ctx = false ->
      exists out,
        requestHandler (S fuel) env ctx = ([], Some out)
        /\ outStatus out = 504
        /\ outBody out = "upstream timeout").
Proof.
  intros Hmax. split; [|split; [|split]].
  - intros fuel attempt n [Hmin _] Hfuel.
    destruct (formatFails ctx) eqn:Hfmt.
    + destruct fuel as [|fuel]; [lia|].
      rewrite makeRequest_malformed by exact Hfmt. cbn.
      split; [eauto | lia].
    + apply makeRequest_returns; assumption.
  - intros fuel attempt n [Hmin _] Hle Hfmt Hret.
    assert (Hadd : Int64.add attempt 1 = attempt + 1)
      by (apply add_1_small; lia).
    destruct (makeRequest_retried env ctx Hfmt fuel attempt n Hle Hret)
      as (_ & Hc & Hs).
    rewrite Hadd in Hc, Hs. repeat split; assumption.
  - intros fuel attempt n Hgt. cbn [makeRequest].
    destruct (attempt >? retries env) eqn:E; [reflexivity | lia].
  - intros fuel Hlt Hauth Hfmt.
    rewrite (requestHandler_proxied (S fuel) env ctx Hauth Hfmt).
    rewrite makeRequest_exhausted by (assumption || lia).
    exists (relay ctx timeoutResponse). cbn [fst snd option_map].
    rewrite outStatus_relay. repeat split.
Qed.

Lemma C9_retry_recursion_total_witness :
  let env := Samples.envOf [("RETRIES", "0")]
               (Samples.always (DoOk Samples.ok200)) in
  retries env < Int64.max_int
  /\ exists out,
       requestHandler 1 env Samples.getFoo = ([], Some out)
       /\ outStatus out = 504
       /\ outBody out = "upstream timeout".
Proof.
  intros env.
  assert (Hmax : retries env < Int64.max_int) by (vm_compute; reflexivity).
  split; [exact Hmax|].
  destruct (C9_retry_recursion_total env Samples.getFoo Hmax)
    as (_ & _ & _ & H).
  apply (H 0%nat).
  - vm_compute. reflexivity.
  - reflexivity.
  - reflexivity.
Defined.

(** ** The two guards of the handler (claims C3, C4, C10) *)

Lemma formatFails_iff_no_slash (ctx : RequestCtx.t) :
  formatFails ctx
  = negb (Strings.has_slash (Strings.from1 (RequestCtx.RequestURI ctx))).
Proof. unfold formatFails. apply SplitN2_short. Qed.

(** C3, as the spec states it, fails when a part is empty: the target
    [/example.com/] splits into the host [example.com] and an empty path,
    and the handler does call the upstream and relays its 200. *)
Lemma C3_empty_path_reaches_upstream :
  let env := Samples.envOf [] (Samples.always (DoOk Samples.ok200)) in
  let ctx := RequestCtx.fresh (Samples.inbound "GET" "/example.com/" [] "") in
  let r := requestHandler 2 env ctx in
  Strings.SplitN2 (Strings.from1 (RequestCtx.RequestURI ctx))
    = ["example.com"; ""]
  /\ calls (fst r) = 1%nat
  /\ option_map outStatus (snd r) = Some 200
  /\ option_map outStatus (snd r) <> Some 400.
Proof.
  vm_compute. repeat split; discriminate.
Qed.

(** C3, amended: for every request that passes authentication and whose
    request-target, after its first byte, contains no ['/'] (no split), the
    handler responds 400 with body "URL format invalid." and performs no
    upstream exchange. *)
Theorem C3_no_split_is_400 (env : Env) (ctx : RequestCtx.t) (fuel : nat) :
  authFails env ctx = false ->
  Strings.has_slash (Strings.from1 (RequestCtx.RequestURI ctx)) = false ->
  exists out,
    requestHandler fuel env ctx = ([], Some out)
    /\ outStatus out = 400
    /\ outBody out = "URL format invalid."
    /\ calls (fst (requestHandler fuel env ctx)) = 0%nat.
Proof.
  intros Hauth Hslash.
  assert (Hfmt : formatFails ctx = true)
    by (rewrite formatFails_iff_no_slash, Hslash; reflexivity).
  unfold requestHandler. rewrite Hauth, Hfmt.
  eexists. repeat split.
Qed.

Lemma C3_no_split_is_400_witness :
  let env := Samples.envOf [] (Samples.always (DoOk Samples.ok200)) in
  let ctx := RequestCtx.fresh (Samples.inbound "GET" "/example.com" [] "") in
  exists out,
    requestHandler 9 env ctx = ([], Some out)
    /\ outStatus out = 400
    /\ outBody out = "URL format invalid."
    /\ calls (fst (requestHandler 9 env ctx)) = 0%nat.
Proof.
  intros env ctx. apply (C3_no_split_is_400 env ctx 9); reflexivity.
Defined.


Lemma peekArg_absent (h : list argsKV) (key : string) :
  (forall k v, In (k, v) h -> k <> key) -> peekArg h key = EmptyString.
Proof.
  induction h as [|[k v] t IH]; intros H; cbn [peekArg]; [reflexivity|].
  destruct (String.eqb key k) eqn:E.
  - apply String.eqb_eq in E. exfalso. apply (H k v); [left; reflexivity|].
    symmetry; exact E.
  - apply IH. intros k' v' Hin. apply (H k' v'). right. exact Hin.
Qed.





(** ** Rate limiting (claim C6) *)

Lemma Atoi_empty : Strconv.Atoi EmptyString = (0, Some Strconv.ErrSyntax).
Proof. reflexivity. Qed.

Lemma length_pos_iff (s : string) :
  (0 <? String.length s)%nat = negb (String.eqb s EmptyString).
Proof. destruct s; reflexivity. Qed.

(** C6, as the spec states it, fails for a large [Retry-After]: the value
    10000000000 parses to a positive integer, but that many seconds do not
    fit a 64-bit nanosecond duration; the argument of [time.Sleep] wraps
    around to a negative number (a sleep that returns at once), not to
    10000000000 s plus 100 ms. *)
Lemma C6_large_retry_after_wraps :
  let resp := Samples.response 429 [("Retry-After", "10000000000")] "slow down" in
  let env := Samples.envOf [] (Samples.always (DoOk resp)) in
  Strconv.Atoi (ResponseHeader.Peek (Response.Header resp) "Retry-After")
    = (10000000000, None)
  /\ fst (makeRequest 1 env Samples.getFoo 1 0)
     = [EvDo (requestOf Samples.getFoo); EvSleep (-8446744073609551616)]
  /\ fst (makeRequest 1 env Samples.getFoo 1 0)
     <> [EvDo (requestOf Samples.getFoo);
         EvSleep (10000000000 * Time.Second + 100 * Time.Millisecond)].
Proof.
  vm_compute. repeat split. discriminate.
Qed.

(** C6, amended: an upstream attempt answered with status 429 makes
    [makeRequest] return that very response, with no further exchange.
    Before returning it sleeps exactly once, for [s] seconds plus 100 ms,
    when the [Retry-After] header parses to an integer [s] with
    [0 < s <= 9223372036] (the largest number of seconds whose nanoseconds,
    with the margin, fit a 64-bit duration); it does not sleep when the
    header is absent or empty, or when [strconv.Atoi] answers a value that is
    not positive (which includes every text it rejects as ill-formed). *)
Theorem C6_rate_limited_is_final
  (env : Env) (ctx : RequestCtx.t) (fuel : nat) (attempt : Z) (n : nat)
  (resp : Response.t) :
  formatFails ctx = false ->
  attempt <= retries env ->
  client env n (requestOf ctx) = DoOk resp ->
  Response.StatusCode resp = 429 ->
  let r := makeRequest (S fuel) env ctx attempt n in
  let ra := ResponseHeader.Peek (Response.Header resp) "Retry-After" in
  snd r = Some resp
  /\ calls (fst r) = 1%nat
  /\ (forall s,
        Strconv.Atoi ra = (s, None) ->
        0 < s <= 9223372036 ->
        fst r = [EvDo (requestOf ctx);
                 EvSleep (s * Time.Second + 100 * Time.Millisecond)])
  /\ (ra = EmptyString \/ fst (Strconv.Atoi ra) <= 0 ->
      fst r = [EvDo (requestOf ctx)]).
Proof.
  intros Hfmt Hle Hd H429. cbv zeta.
  rewrite (makeRequest_429 env ctx Hfmt fuel attempt n resp Hle Hd H429).
  cbn [fst snd]. split; [reflexivity|]. split.
  { unfold calls. cbn [filter isDo]. rewrite retryAfterSleep_no_calls.
    reflexivity. }
  unfold retryAfterSleep.
  set (ra := ResponseHeader.Peek (Response.Header resp) "Retry-After").
  split.
  - intros s Hs Hrange.
    destruct ra as [|c t] eqn:Hra.
    + rewrite Atoi_empty in Hs. discriminate.
    + cbn [String.length Nat.ltb Nat.leb]. rewrite Hs. cbn [fst].
      destruct (s >? 0) eqn:E; [|lia].
      rewrite retryAfterDelay_small by lia. reflexivity.
  - intros [Hempty|Hnonpos].
    + rewrite Hempty. reflexivity.
    + destruct (0 <? String.length ra)%nat; [|reflexivity].
      destruct (fst (Strconv.Atoi ra) >? 0) eqn:E; [lia | reflexivity].
Qed.

Lemma C6_rate_limited_is_final_witness :
  let resp := Samples.response 429 [("Retry-After", "2")] "slow down" in
  let env := Samples.envOf [] (Samples.always (DoOk resp)) in
  let r := makeRequest 1 env Samples.getFoo 1 0 in
  snd r = Some resp
  /\ calls (fst r) = 1%nat
  /\ fst r = [EvDo (requestOf Samples.getFoo); EvSleep 2100000000].
Proof.
  intros resp env.
  destruct (C6_rate_limited_is_final env Samples.getFoo 0 1 0 resp)
    as (Hs & Hc & Hsleep & _).
  - reflexivity.
  - vm_compute. discriminate.
  - reflexivity.
  - reflexivity.
  - split; [exact Hs|]. split; [exact Hc|].
    apply (Hsleep 2); [reflexivity | lia].
Defined.

(** ** The upstream request (claim C8) *)

Lemma copyHeader_line (kv : argsKV) (hd : RequestHeader.t) :
  RequestHeader.method (copyHeader hd kv) = RequestHeader.method hd
  /\ RequestHeader.requestURI (copyHeader hd kv) = RequestHeader.requestURI hd.
Proof.
  unfold copyHeader. destruct (dropped (fst kv)); [split; reflexivity|].
  unfold RequestHeader.SetBytesKV, RequestHeader.SetCanonical.
  destruct (String.eqb _ "Host"); split; reflexivity.
Qed.

Lemma copyHeaders_line (l : list argsKV) : forall hd,
  RequestHeader.method (fold_left copyHeader l hd) = RequestHeader.method hd
  /\ RequestHeader.requestURI (fold_left copyHeader l hd)
     = RequestHeader.requestURI hd.
Proof.
  induction l as [|kv l IH]; intros hd; cbn [fold_left]; [split; reflexivity|].
  destruct (IH (copyHeader hd kv)) as [Hm Hu].
  destruct (copyHeader_line kv hd) as [Hm' Hu'].
  rewrite Hm, Hu, Hm', Hu'. split; reflexivity.
Qed.

(** The request of [makeRequest] in one piece: the request line, the
    [Host] of the target and the proxy's [User-Agent], over which the inbound
    entries are copied. *)
Lemma upstreamRequest_eq (ctx : RequestCtx.t) (upHost upPath : string) :
  upstreamRequest ctx upHost upPath
  = Request.mk
      (fold_left copyHeader
         (RequestHeader.VisitAll (Request.Header (RequestCtx.Request ctx)))
         (RequestHeader.mk (RequestCtx.Method ctx)
            ("https://" ++ upHost ++ "/" ++ upPath) upHost
            [("User-Agent", "RoProxy")]))
      (Request.body (RequestCtx.Request ctx)).
Proof. reflexivity. Qed.

Lemma upstreamRequest_line (ctx : RequestCtx.t) (upHost upPath : string) :
  let req := upstreamRequest ctx upHost upPath in
  RequestHeader.requestURI (Request.Header req)
    = "https://" ++ upHost ++ "/" ++ upPath
  /\ RequestHeader.method (Request.Header req) = RequestCtx.Method ctx
  /\ Request.Body req = Request.Body (RequestCtx.Request ctx).
Proof.
  cbv zeta. rewrite upstreamRequest_eq. cbn [Request.Header Request.Body].
  match goal with
  | |- context [fold_left copyHeader ?l ?hd] =>
      destruct (copyHeaders_line l hd) as [Hm Hu]; rewrite Hm, Hu
  end.
  repeat split.
Qed.

(** Every exchange of a run carries the request [requestOf ctx]. *)
Lemma makeRequest_sends (env : Env) (ctx : RequestCtx.t) (fuel : nat) :
  forall (attempt : Z) (n : nat) (e : Event),
  In e (fst (makeRequest fuel env ctx attempt n)) ->
  isDo e = true ->
  e = EvDo (requestOf ctx).
Proof.
  induction fuel as [|fuel IH]; intros attempt n e Hin Hdo; [destruct Hin|].
  cbn [makeRequest] in Hin.
  destruct (attempt >? retries env); [destruct Hin|].
  destruct (List.length _ <? 2)%nat; [destruct Hin|].
  fold (requestOf ctx) in Hin.
  destruct (client env n (requestOf ctx)) as [msg|resp].
  - cbn [fst] in Hin. destruct Hin as [H|[H|[H|H]]];
      try (subst e; (reflexivity || discriminate Hdo)).
    apply (IH _ _ _ H Hdo).
  - destruct (Response.StatusCode resp =? 429).
    + cbn [fst] in Hin. destruct Hin as [H|H]; [subst e; reflexivity|].
      exfalso. pose proof (retryAfterSleep_no_calls resp) as Hno.
      assert (Hf : In e (filter isDo (retryAfterSleep resp)))
        by (apply filter_In; split; assumption).
      rewrite Hno in Hf. destruct Hf.
    + destruct ((Response.StatusCode resp >=? 500)
                && (Response.StatusCode resp <=? 599)).
      * cbn [fst] in Hin. destruct Hin as [H|[H|[H|H]]];
          try (subst e; (reflexivity || discriminate Hdo)).
        apply (IH _ _ _ H Hdo).
      * cbn [fst] in Hin. destruct Hin as [H|[]]. subst e. reflexivity.
Qed.

(** C8: for a request-target [/<host>/<rest>] (the host being the text up
    to the first ['/'] after the leading one) the upstream request has the
    URI ["https://" + host + "/" + rest], query string included, and the
    method and body of the inbound request; every upstream exchange of the
    handler carries that request, and an authenticated request with
    [retries >= 1] does start with one. *)
Theorem C8_upstream_uri
  (env : Env) (ctx : RequestCtx.t) (fuel : nat) (host rest : string) :
  RequestCtx.RequestURI ctx = "/" ++ host ++ "/" ++ rest ->
  Strings.has_slash host = false ->
  let req := requestOf ctx in
  RequestHeader.requestURI (Request.Header req)
    = "https://" ++ host ++ "/" ++ rest
  /\ RequestHeader.method (Request.Header req) = RequestCtx.Method ctx
  /\ Request.Body req = Request.Body (RequestCtx.Request ctx)
  /\ (forall e,
        In e (fst (requestHandler fuel env ctx)) -> isDo e = true ->
        e = EvDo req)
  /\ (authFails env ctx = false -> 1 <= retries env -> (0 < fuel)%nat ->
      exists tr, fst (requestHandler fuel env ctx) = EvDo req :: tr).
Proof.
  intros Huri Hhost. cbv zeta.
  assert (Hparts : Strings.SplitN2 (Strings.from1 (RequestCtx.RequestURI ctx))
                   = [host; rest]).
  { rewrite Huri. cbn [append Strings.from1]. apply SplitN2_app. exact Hhost. }
  assert (Hfmt : formatFails ctx = false).
  { unfold formatFails. fold (RequestCtx.RequestURI ctx). rewrite Hparts.
    reflexivity. }
  assert (Hreq : requestOf ctx = upstreamRequest ctx host rest).
  { unfold requestOf. rewrite Hparts. reflexivity. }
  destruct (upstreamRequest_line ctx host rest) as (Hu & Hm & Hb).
  rewrite Hreq. split; [exact Hu|]. split; [exact Hm|]. split; [exact Hb|].
  rewrite <- Hreq. split.
  - intros e Hin Hdo. unfold requestHandler in Hin.
    destruct (authFails env ctx); [destruct Hin|].
    rewrite Hfmt in Hin. cbn [fst] in Hin.
    apply (makeRequest_sends env ctx fuel 1 0 e Hin Hdo).
  - intros Hauth Hret Hfuel.
    rewrite (requestHandler_proxied fuel env ctx Hauth Hfmt). cbn [fst].
    destruct fuel as [|fuel]; [lia|].
    cbn [makeRequest].
    destruct (1 >? retries env) eqn:E; [lia|].
    unfold formatFails in Hfmt. fold (RequestCtx.RequestURI ctx) in Hfmt.
    rewrite Hfmt. fold (requestOf ctx).
    destruct (client env 0%nat (requestOf ctx)) as [msg|resp].
    + eexists. reflexivity.
    + destruct (Response.StatusCode resp =? 429); [eexists; reflexivity|].
      destruct ((Response.StatusCode resp >=? 500)
                && (Response.StatusCode resp <=? 599)); eexists; reflexivity.
Qed.

Lemma C8_upstream_uri_witness :
  let env := Samples.envOf [] (Samples.always (DoOk Samples.ok200)) in
  let ctx := RequestCtx.fresh
               (Samples.inbound "POST" "/example.com/foo/bar?x=1" [] "payload") in
  RequestHeader.requestURI (Request.Header (requestOf ctx))
    = "https://example.com/foo/bar?x=1"
  /\ RequestHeader.method (Request.Header (requestOf ctx)) = "POST"
  /\ Request.Body (requestOf ctx) = "payload"
  /\ exists tr, fst (requestHandler 1 env ctx) = EvDo (requestOf ctx) :: tr.
Proof.
  intros env ctx.
  destruct (C8_upstream_uri env ctx 1 "example.com" "foo/bar?x=1")
    as (Hu & Hm & Hb & _ & Hcall).
  - reflexivity.
  - reflexivity.
  - split; [exact Hu|]. split; [exact Hm|]. split; [exact Hb|].
    apply Hcall.
    + reflexivity.
    + vm_compute. discriminate.
    + lia.
Defined.

(** ** Header stores *)

Lemma lower_upper (c : ascii) :
  Strings.lower_ascii (Strings.upper_ascii c) = Strings.lower_ascii c.
Proof. destruct c as [[] [] [] [] [] [] [] []]; reflexivity. Qed.

Lemma lower_lower (c : ascii) :
  Strings.lower_ascii (Strings.lower_ascii c) = Strings.lower_ascii c.
Proof. destruct c as [[] [] [] [] [] [] [] []]; reflexivity. Qed.

(** Bringing a name to canonical form does not change it as far as a
    case-insensitive comparison can tell. *)
Lemma ToLower_normalize (s : string) : forall up,
  Strings.ToLower (normalizeFrom up s) = Strings.ToLower s.
Proof.
  induction s as [|c t IH]; intros up; cbn [normalizeFrom]; [reflexivity|].
  destruct up.
  - cbn [Strings.ToLower]. rewrite lower_upper, IH. reflexivity.
  - destruct (Ascii.eqb c "-"); cbn [Strings.ToLower].
    + rewrite IH. reflexivity.
    + rewrite lower_lower, IH. reflexivity.
Qed.

Lemma dropped_normalize (k : string) :
  dropped (normalizeHeaderKey k) = dropped k.
Proof.
  unfold dropped, normalizeHeaderKey. rewrite ToLower_normalize. reflexivity.
Qed.

Lemma normalized_Host_dropped (k : string) :
  String.eqb (normalizeHeaderKey k) "Host" = true -> dropped k = true.
Proof.
  intros H. apply String.eqb_eq in H.
  rewrite <- dropped_normalize, H. reflexivity.
Qed.

Lemma setArg_In_inv (h : list argsKV) (key value : string) (kv : argsKV) :
  In kv (setArg h key value) -> In kv h \/ kv = (key, value).
Proof.
  induction h as [|[k v] t IH]; cbn [setArg].
  - intros [H|[]]. right. symmetry. exact H.
  - destruct (String.eqb key k) eqn:E.
    + apply String.eqb_eq in E. subst k. intros [H|H].
      * right. symmetry. exact H.
      * left. right. exact H.
    + intros [H|H].
      * left. left. exact H.
      * destruct (IH H) as [H'|H']; [left; right; exact H' | right; exact H'].
Qed.

Lemma setArg_In_new (h : list argsKV) (key value : string) :
  In (key, value) (setArg h key value).
Proof.
  induction h as [|[k v] t IH]; cbn [setArg]; [left; reflexivity|].
  destruct (String.eqb key k) eqn:E.
  - apply String.eqb_eq in E. subst k. left. reflexivity.
  - right. exact IH.
Qed.

Lemma setArg_In_other (h : list argsKV) (key value : string) (kv : argsKV) :
  In kv h -> fst kv <> key -> In kv (setArg h key value).
Proof.
  induction h as [|[k v] t IH]; cbn [setArg]; intros Hin Hne; [destruct Hin|].
  destruct (String.eqb key k) eqn:E.
  - apply String.eqb_eq in E. subst k. destruct Hin as [H|H].
    + subst kv. exfalso. apply Hne. reflexivity.
    + right. exact H.
  - destruct Hin as [H|H]; [left; exact H | right; apply IH; assumption].
Qed.

Lemma setArg_fresh (h : list argsKV) (key value : string) :
  ~ In key (map fst h) -> setArg h key value = (h ++ [(key, value)])%list.
Proof.
  induction h as [|[k v] t IH]; cbn [setArg map fst app]; intros H;
    [reflexivity|].
  destruct (String.eqb key k) eqn:E.
  - apply String.eqb_eq in E. exfalso. apply H. left. symmetry. exact E.
  - rewrite IH; [reflexivity|]. intros Hin. apply H. right. exact Hin.
Qed.

(** Entries with pairwise distinct names, set one after the other over a
    store that has none of these names, line up behind it. *)
Lemma fold_setKV_append (l : list argsKV) : forall acc,
  NoDup (map fst (acc ++ l)%list) ->
  fold_left setKV l acc = (acc ++ l)%list.
Proof.
  induction l as [|[k v] l IH]; intros acc Hnd; cbn [fold_left].
  - rewrite app_nil_r. reflexivity.
  - unfold setKV at 2. cbn [fst snd].
    rewrite map_app in Hnd. cbn [map fst] in Hnd.
    pose proof (NoDup_remove_2 _ _ _ Hnd) as Hk.
    rewrite setArg_fresh.
    + rewrite IH.
      * rewrite <- app_assoc. reflexivity.
      * rewrite <- app_assoc. cbn [app]. rewrite map_app. exact Hnd.
    + intros Hin. apply Hk. apply in_or_app. left. exact Hin.
Qed.

Lemma fold_setKV_keeps (l : list argsKV) : forall acc kv,
  In kv acc -> ~ In (fst kv) (map fst l) -> In kv (fold_left setKV l acc).
Proof.
  induction l as [|[k v] l IH]; intros acc kv Hin Hno; cbn [fold_left];
    [exact Hin|].
  apply IH.
  - unfold setKV. cbn [fst snd]. apply setArg_In_other; [exact Hin|].
    intros E. apply Hno. left. symmetry. exact E.
  - intros H. apply Hno. right. exact H.
Qed.

Lemma fold_setKV_In (l : list argsKV) : forall acc kv,
  NoDup (map fst l) -> In kv l -> In kv (fold_left setKV l acc).
Proof.
  induction l as [|[k v] l IH]; intros acc kv Hnd Hin; [destruct Hin|].
  cbn [fold_left]. cbn [map fst] in Hnd.
  pose proof (NoDup_cons_iff k (map fst l)) as [Hc _].
  destruct (Hc Hnd) as [Hk Hnd'].
  destruct Hin as [H|H].
  - subst kv. apply fold_setKV_keeps; [|exact Hk].
    unfold setKV. cbn [fst snd]. apply setArg_In_new.
  - apply IH; assumption.
Qed.

Section Others.

(** The entries of a store whose name is not [u]. *)
Variable u : string.

Let others (kv : argsKV) : bool := negb (String.eqb (fst kv) u).

Lemma setArg_same_others (h : list argsKV) (v : string) :
  filter others (setArg h u v) = filter others h.
Proof.
  induction h as [|[k v0] t IH]; cbn [setArg filter].
  - unfold others. cbn [fst]. rewrite String.eqb_refl. reflexivity.
  - destruct (String.eqb u k) eqn:E; cbn [filter].
    + apply String.eqb_eq in E. subst k. unfold others. cbn [fst].
      rewrite String.eqb_refl. reflexivity.
    + rewrite IH. reflexivity.
Qed.

Lemma in_keys_others (h : list argsKV) (k : string) :
  In k (map fst h) -> k <> u -> In k (map fst (filter others h)).
Proof.
  induction h as [|[k0 v0] t IH]; cbn [map fst filter]; intros Hin Hne;
    [destruct Hin|].
  destruct Hin as [H|H].
  - subst k0. unfold others at 1. cbn [fst].
    apply String.eqb_neq in Hne. rewrite Hne. left. reflexivity.
  - destruct (others (k0, v0)); [right|]; apply IH; assumption.
Qed.

(** Setting entries of distinct names leaves the entries of other names
    than [u] in the order in which they were set. *)
Lemma fold_setKV_others (l : list argsKV) : forall acc,
  NoDup (map fst (filter others acc) ++ map fst (filter others l))%list ->
  filter others (fold_left setKV l acc)
  = (filter others acc ++ filter others l)%list.
Proof.
  induction l as [|[k v] l IH]; intros acc Hnd; cbn [fold_left filter].
  - rewrite app_nil_r. reflexivity.
  - cbn [filter] in Hnd. unfold others at 3. unfold others at 2 in Hnd.
    cbn [fst] in Hnd |- *. unfold setKV at 2. cbn [fst snd].
    destruct (String.eqb k u) eqn:E; cbn [negb] in Hnd |- *.
    + apply String.eqb_eq in E. subst k.
      rewrite IH; rewrite setArg_same_others; [reflexivity | exact Hnd].
    + cbn [map fst] in Hnd.
      pose proof (NoDup_remove_2 _ _ _ Hnd) as Hk.
      assert (Hfresh : ~ In k (map fst acc)).
      { intros Hin. apply Hk. apply in_or_app. left.
        apply in_keys_others; [exact Hin|]. apply String.eqb_neq. exact E. }
      rewrite (setArg_fresh acc k v Hfresh).
      assert (Hf : filter others (acc ++ [(k, v)])
                   = (filter others acc ++ [(k, v)])%list).
      { rewrite filter_app. cbn [filter]. unfold others at 2. cbn [fst].
        rewrite E. reflexivity. }
      rewrite IH; rewrite Hf.
      * rewrite <- app_assoc. reflexivity.
      * rewrite map_app, <- app_assoc. exact Hnd.
Qed.

End Others.

Lemma NoDup_keys_filter (f : argsKV -> bool) (l : list argsKV) :
  NoDup (map fst l) -> NoDup (map fst (filter f l)).
Proof.
  induction l as [|kv l IH]; cbn [map filter]; intros H; [constructor|].
  pose proof (NoDup_cons_iff (fst kv) (map fst l)) as [Hc _].
  destruct (Hc H) as [Hk Hnd].
  destruct (f kv); cbn [map]; [|apply IH; exact Hnd].
  constructor; [|apply IH; exact Hnd].
  intros Hin. apply Hk. apply in_map_iff in Hin.
  destruct Hin as (x & Hx & Hinx). apply filter_In in Hinx.
  apply in_map_iff. exists x. split; [exact Hx | apply Hinx].
Qed.

(** ** The header copy of [makeRequest] (claim C5) *)

Lemma copyHeaders_inv (l : list argsKV) : forall hd,
  (forall kv, In kv (RequestHeader.h hd) -> dropped (fst kv) = false) ->
  RequestHeader.host (fold_left copyHeader l hd) = RequestHeader.host hd
  /\ (forall kv, In kv (RequestHeader.h (fold_left copyHeader l hd)) ->
        dropped (fst kv) = false).
Proof.
  induction l as [|[k v] l IH]; intros hd Hinv; cbn [fold_left];
    [split; [reflexivity | exact Hinv]|].
  unfold copyHeader at 2 4. cbn [fst snd].
  destruct (dropped k) eqn:Hd; [apply IH; exact Hinv|].
  unfold RequestHeader.SetBytesKV, RequestHeader.SetCanonical.
  destruct (String.eqb (normalizeHeaderKey k) "Host") eqn:Hh.
  { apply normalized_Host_dropped in Hh. congruence. }
  match goal with
  | |- context [fold_left copyHeader l ?hd'] => destruct (IH hd') as [Ih Ik]
  end.
  - cbn [RequestHeader.h]. intros kv Hin.
    destruct (setArg_In_inv _ _ _ _ Hin) as [H|H]; [apply Hinv; exact H|].
    subst kv. cbn [fst]. rewrite dropped_normalize. exact Hd.
  - split; [exact Ih | exact Ik].
Qed.

Lemma copyHeaders_h (l : list argsKV) : forall hd,
  Forall canonical l ->
  RequestHeader.h (fold_left copyHeader l hd)
  = fold_left setKV (filter kept l) (RequestHeader.h hd).
Proof.
  induction l as [|[k v] l IH]; intros hd Hcan; cbn [fold_left filter];
    [reflexivity|].
  pose proof (Forall_inv Hcan) as Hk. pose proof (Forall_inv_tail Hcan) as Ht.
  unfold canonical in Hk. cbn [fst] in Hk.
  unfold copyHeader at 2, kept at 1. cbn [fst snd].
  destruct (dropped k) eqn:Hd; cbn [negb]; [apply IH; exact Ht|].
  unfold RequestHeader.SetBytesKV, RequestHeader.SetCanonical.
  destruct (String.eqb (normalizeHeaderKey k) "Host") eqn:Hh.
  { apply normalized_Host_dropped in Hh. congruence. }
  rewrite IH by exact Ht. cbn [fold_left RequestHeader.h].
  rewrite Hk. reflexivity.
Qed.

(** C5, as the spec states it, fails on a repeated name: of two inbound
    [X-Tag] entries only the second reaches the upstream request, because
    the copy sets each entry over the previous one of its name. *)
Lemma C5_repeated_name_keeps_last_value :
  let ctx := RequestCtx.fresh
               (Samples.inbound "GET" "/example.com/foo"
                  [("X-Tag", "a"); ("X-Tag", "b")] "") in
  dropped "X-Tag" = false
  /\ RequestHeader.h (Request.Header (requestOf ctx))
     = [("User-Agent", "RoProxy"); ("X-Tag", "b")]
  /\ ~ In ("X-Tag", "a") (RequestHeader.h (Request.Header (requestOf ctx))).
Proof.
  vm_compute. repeat split.
  intros [H|[H|[]]]; discriminate H.
Qed.

(** C5, amended: in the upstream request no entry bears a name that matches
    the drop-set case-insensitively, apart from the [Host] of the target,
    which the proxy sets itself.  When the inbound names are pairwise
    distinct (in the canonical form in which the server stores them), every
    other inbound header is in the upstream request with its name and value
    unchanged, and these entries, [User-Agent] aside, stand in their inbound
    order. *)
Theorem C5_header_copy (ctx : RequestCtx.t) (upHost upPath : string) :
  let hs := RequestHeader.VisitAll (Request.Header (RequestCtx.Request ctx)) in
  let out := Request.Header (upstreamRequest ctx upHost upPath) in
  (forall kv,
      In kv (RequestHeader.VisitAll out) ->
      kv = ("Host", upHost) \/ dropped (fst kv) = false)
  /\ (Forall canonical hs ->
      NoDup (map fst hs) ->
      (forall kv, In kv hs -> dropped (fst kv) = false ->
                  In kv (RequestHeader.h out))
      /\ filter notUserAgent (RequestHeader.h out)
         = filter notUserAgent (filter kept hs)).
Proof.
  cbv zeta. rewrite upstreamRequest_eq. cbn [Request.Header].
  set (hs := RequestHeader.VisitAll (Request.Header (RequestCtx.Request ctx))).
  set (hd0 := RequestHeader.mk (RequestCtx.Method ctx)
                ("https://" ++ upHost ++ "/" ++ upPath) upHost
                [("User-Agent", "RoProxy")]).
  split.
  - destruct (copyHeaders_inv hs hd0) as [Hhost Hkeys].
    { intros kv [H|[]]. subst kv. reflexivity. }
    intros kv Hin. unfold RequestHeader.VisitAll in Hin.
    rewrite Hhost in Hin. cbn [RequestHeader.host hd0] in Hin.
    destruct upHost as [|c t].
    + right. apply Hkeys. exact Hin.
    + destruct Hin as [H|H]; [left; symmetry; exact H|].
      right. apply Hkeys. exact H.
  - intros Hcan Hnd. rewrite (copyHeaders_h hs hd0 Hcan).
    cbn [RequestHeader.h hd0]. split.
    + intros kv Hin Hd. apply fold_setKV_In.
      * apply NoDup_keys_filter. exact Hnd.
      * apply filter_In. split; [exact Hin|]. unfold kept. rewrite Hd.
        reflexivity.
    + unfold notUserAgent.
      rewrite (fold_setKV_others "User-Agent").
      * reflexivity.
      * cbn [filter fst String.eqb negb map app].
        apply NoDup_keys_filter. apply NoDup_keys_filter. exact Hnd.
Qed.

Lemma C5_header_copy_witness :
  let ctx := RequestCtx.fresh
               (Samples.inbound "GET" "/example.com/foo"
                  [("Accept", "*/*"); ("Proxykey", "s3cret");
                   ("X-Request-Id", "42"); ("X-Tag", "a")] "") in
  let out := Request.Header (upstreamRequest ctx "example.com" "foo") in
  In ("X-Tag", "a") (RequestHeader.h out)
  /\ filter notUserAgent (RequestHeader.h out)
     = [("Accept", "*/*"); ("X-Tag", "a")].
Proof.
  intros ctx.
  destruct (C5_header_copy ctx "example.com" "foo") as [_ H].
  destruct H as [Hin Hord].
  - repeat constructor.
  - vm_compute. repeat constructor; intros H;
      repeat (destruct H as [H|H]; [discriminate H|]); destruct H.
  - split.
    + apply Hin; [|reflexivity]. vm_compute. tauto.
    + exact Hord.
Defined.

(** ** The relayed response (claim C7) *)

Lemma isManaged_normalize (k : string) :
  ResponseHeader.isManaged (normalizeHeaderKey k) = ResponseHeader.isManaged k.
Proof.
  unfold ResponseHeader.isManaged, normalizeHeaderKey.
  rewrite ToLower_normalize. reflexivity.
Qed.

(** [Set] under a plain name works on the plain entries only; under a
    managed name it leaves them alone. *)
Lemma Set_h (hd : ResponseHeader.t) (key value : string) :
  ResponseHeader.h (ResponseHeader.Set_ hd key value)
  = if ResponseHeader.isManaged key then ResponseHeader.h hd
    else setArg (ResponseHeader.h hd) (normalizeHeaderKey key) value.
Proof.
  unfold ResponseHeader.Set_. rewrite isManaged_normalize.
  destruct (ResponseHeader.isManaged key); reflexivity.
Qed.

Lemma relayHeaders_h (l : list argsKV) : forall hd,
  Forall canonical (filter plain l) ->
  ResponseHeader.h (fold_left relayHeader l hd)
  = fold_left setKV (filter plain l) (ResponseHeader.h hd).
Proof.
  induction l as [|[k v] l IH]; intros hd Hcan; cbn [fold_left filter];
    [reflexivity|].
  cbn [filter] in Hcan. unfold plain at 1. unfold plain at 1 in Hcan.
  cbn [fst] in Hcan |- *.
  pose proof (Set_h hd k v) as Hset.
  destruct (ResponseHeader.isManaged k); cbn [negb] in Hcan |- *.
  - rewrite IH by exact Hcan. unfold relayHeader. cbn [fst snd].
    rewrite Hset. reflexivity.
  - pose proof (Forall_inv Hcan) as Hk.
    pose proof (Forall_inv_tail Hcan) as Ht.
    unfold canonical in Hk. cbn [fst] in Hk.
    rewrite IH by exact Ht. cbn [fold_left].
    unfold relayHeader, setKV at 2. cbn [fst snd].
    rewrite Hset, Hk. reflexivity.
Qed.

(** The plain headers [relay] leaves: the upstream headers set one after
    the other over those of the response, then the two proxy headers. *)
Lemma plainHeaders_relay (ctx : RequestCtx.t) (r : Response.t) :
  plainHeaders (relay ctx r)
  = setArg
      (setArg
         (ResponseHeader.h
            (fold_left relayHeader
               (ResponseHeader.VisitAll (Response.Header r))
               (Response.Header
                  (RequestCtx.Response
                     (RequestCtx.SetStatusCode ctx (Response.StatusCode r))))))
         "X-Proxy-Upstream-Status" (Strconv.Itoa (Response.StatusCode r)))
      "Via" "roproxy-lite".
Proof. reflexivity. Qed.

(** C7, as the spec states it, fails when the upstream response has a
    [Via] header of its own: the proxy's [Via] is set over it, so the
    upstream entry is not among the relayed headers. *)
Lemma C7_upstream_Via_is_overwritten :
  let resp := Samples.response 200 [("Via", "1.1 varnish")] "ok" in
  let env := Samples.envOf [] (Samples.always (DoOk resp)) in
  let r := requestHandler 2 env Samples.getFoo in
  option_map plainHeaders (snd r)
    = Some [("Via", "roproxy-lite"); ("X-Proxy-Upstream-Status", "200")]
  /\ ~ (exists out,
          snd r = Some out /\ In ("Via", "1.1 varnish") (plainHeaders out)).
Proof.
  vm_compute. split; [reflexivity|].
  intros (out & H & Hin). injection H as H. subst out.
  cbn in Hin. destruct Hin as [Hin|[Hin|[]]]; discriminate Hin.
Qed.

(** C7, amended: when the retry engine hands back the response [resp], the
    relayed response has the status of [resp] and its body byte for byte.
    Among its plain headers (those under a name fasthttp does not manage
    itself) are [X-Proxy-Upstream-Status] (the status in decimal) and [Via]
    ("roproxy-lite"), set after the upstream headers and over any upstream
    header of these names.  When the plain upstream header names are
    pairwise distinct (in canonical form) and none of them is one of these
    two, the plain headers of the relayed response are exactly the plain
    upstream headers, in order, followed by the two proxy headers. *)
Theorem C7_relayed_response
  (env : Env) (req : Request.t) (fuel : nat) (resp : Response.t) :
  let ctx := RequestCtx.fresh req in
  let hs := filter plain (ResponseHeader.VisitAll (Response.Header resp)) in
  let status := ("X-Proxy-Upstream-Status",
                 Strconv.Itoa (Response.StatusCode resp)) in
  let via := ("Via", "roproxy-lite") in
  authFails env ctx = false ->
  formatFails ctx = false ->
  snd (makeRequest fuel env ctx 1 0) = Some resp ->
  exists out,
    snd (requestHandler fuel env ctx) = Some out
    /\ outStatus out = Response.StatusCode resp
    /\ outBody out = Response.Body resp
    /\ In status (plainHeaders out)
    /\ In via (plainHeaders out)
    /\ (Forall canonical hs ->
        NoDup (map fst hs) ->
        ~ In "X-Proxy-Upstream-Status" (map fst hs) ->
        ~ In "Via" (map fst hs) ->
        plainHeaders out = (hs ++ [status; via])%list).
Proof.
  intros ctx hs status via Hauth Hfmt Hres.
  rewrite (requestHandler_proxied fuel env ctx Hauth Hfmt). cbn [snd].
  rewrite Hres. cbn [option_map].
  exists (relay ctx resp).
  split; [reflexivity|]. split; [apply outStatus_relay|].
  split; [reflexivity|].
  rewrite plainHeaders_relay.
  split; [|split].
  - apply setArg_In_other; [apply setArg_In_new | discriminate].
  - apply setArg_In_new.
  - intros Hcan Hnd Hst Hvia.
    rewrite (relayHeaders_h _ _ Hcan). fold hs.
    unfold ctx. cbn [RequestCtx.fresh RequestCtx.SetStatusCode
                     RequestCtx.Response Response.AcquireResponse
                     Response.SetStatusCode Response.Header
                     ResponseHeader.SetStatusCode ResponseHeader.empty
                     ResponseHeader.h].
    rewrite (fold_setKV_append hs []) by exact Hnd. cbn [app].
    rewrite (setArg_fresh hs) by exact Hst.
    rewrite setArg_fresh.
    + rewrite <- app_assoc. reflexivity.
    + rewrite map_app. cbn [map fst]. intros Hin.
      apply in_app_or in Hin. destruct Hin as [H|[H|[]]];
        [exact (Hvia H) | discriminate H].
Qed.

Lemma C7_relayed_response_witness :
  let resp := Samples.response 200
                [("Content-Type", "text/plain"); ("A", "1");
                 ("Date", "Tue, 01 Jan 2030 00:00:00 GMT"); ("B", "2")] "X" in
  let env := Samples.envOf [] (Samples.always (DoOk resp)) in
  exists out,
    snd (requestHandler 1 env Samples.getFoo) = Some out
    /\ outStatus out = 200
    /\ outBody out = "X"
    /\ plainHeaders out
       = [("A", "1"); ("B", "2"); ("X-Proxy-Upstream-Status", "200");
          ("Via", "roproxy-lite")].
Proof.
  intros resp env.
  destruct (C7_relayed_response env
              (Samples.inbound "GET" "/example.com/foo/bar?x=1" [] "")
              1 resp)
    as (out & Hr & Hs & Hb & _ & _ & Hh).
  - reflexivity.
  - reflexivity.
  - reflexivity.
  - exists out. split; [exact Hr|]. split; [exact Hs|]. split; [exact Hb|].
    apply Hh.
    + repeat constructor.
    + vm_compute. repeat constructor; intros H;
        repeat (destruct H as [H|H]; [discriminate H|]); destruct H.
    + vm_compute. intros H.
      repeat (destruct H as [H|H]; [discriminate H|]). destruct H.
    + vm_compute. intros H.
      repeat (destruct H as [H|H]; [discriminate H|]). destruct H.
Defined.

(** * Further properties of the code *)

(** ** [getEnvInt] and the decimal texts it reads *)

Lemma digitsValue_mono (s : string) : forall n,
  0 <= n -> Literal.allDigits s = true -> n <= Literal.digitsValue n s.
Proof.
  induction s as [|c t IH]; intros n Hn Hd; cbn [Literal.digitsValue]; [lia|].
  cbn [Literal.allDigits] in Hd. apply andb_true_iff in Hd.
  destruct Hd as [Hc Ht].
  assert (0 <= Strconv.digit_val c).
  { unfold Strconv.is_digit in Hc. unfold Strconv.digit_val.
    apply andb_true_iff in Hc. destruct Hc as [Hc _].
    apply Nat.leb_le in Hc. lia. }
  specialize (IH (n * 10 + Strconv.digit_val c) ltac:(lia) Ht). lia.
Qed.

(** The digit loop of [ParseUint] computes the number a digit string
    denotes, or stops with a range error when that number does not fit 64
    bits. *)
Lemma parseUint_digits (s : string) : forall n,
  0 <= n <= Strconv.maxUint64 ->
  Literal.allDigits s = true ->
  Strconv.parseUint n s
  = if Literal.digitsValue n s <=? Strconv.maxUint64
    then (Literal.digitsValue n s, None)
    else (Strconv.maxUint64, Some Strconv.ErrRange).
Proof.
  induction s as [|c t IH]; intros n Hn Hd;
    cbn [Strconv.parseUint Literal.digitsValue].
  - destruct (n <=? Strconv.maxUint64) eqn:E; [reflexivity | lia].
  - cbn [Literal.allDigits] in Hd. apply andb_true_iff in Hd.
    destruct Hd as [Hc Ht]. rewrite Hc.
    assert (Hdv : 0 <= Strconv.digit_val c).
    { unfold Strconv.is_digit in Hc. unfold Strconv.digit_val.
      apply andb_true_iff in Hc. destruct Hc as [Hc _].
      apply Nat.leb_le in Hc. lia. }
    pose proof (digitsValue_mono t (n * 10 + Strconv.digit_val c)
                  ltac:(lia) Ht) as Hmono.
    unfold Strconv.maxUint64 in *.
    destruct (n >=? (2 ^ 64 - 1) / 10 + 1) eqn:Hcut.
    + assert (Hbig : (2 ^ 64 - 1) / 10 + 1 <= n) by lia.
      change ((2 ^ 64 - 1) / 10 + 1) with 1844674407370955162 in Hbig.
      destruct (Literal.digitsValue (n * 10 + Strconv.digit_val c) t
                <=? 2 ^ 64 - 1) eqn:E; [lia | reflexivity].
    + destruct (n * 10 + Strconv.digit_val c >? 2 ^ 64 - 1) eqn:Hov.
      * destruct (Literal.digitsValue (n * 10 + Strconv.digit_val c) t
                  <=? 2 ^ 64 - 1) eqn:E; [lia | reflexivity].
      * apply IH; [lia | exact Ht].
Qed.

Lemma digit_is_no_sign (c : ascii) :
  Strconv.is_digit c = true ->
  Ascii.eqb c "+" = false /\ Ascii.eqb c "-" = false.
Proof.
  destruct c as [[] [] [] [] [] [] [] []]; intros H;
    try discriminate H; split; reflexivity.
Qed.

(** What [ParseInt] makes of the outcome of the digit loop on a non-empty
    digit string. *)
Lemma ParseInt_clamp (neg : bool) (ds : string) :
  Literal.allDigits ds = true ->
  match Strconv.parseUint 0 ds with
  | (_, Some Strconv.ErrSyntax) => (0, Some Strconv.ErrSyntax)
  | (un, _) =>
      if negb neg && (un >=? 2 ^ 63) then (2 ^ 63 - 1, Some Strconv.ErrRange)
      else if neg && (un >? 2 ^ 63) then (- 2 ^ 63, Some Strconv.ErrRange)
      else (if neg then - un else un, None)
  end
  = if neg
    then if Literal.digitsValue 0 ds <=? 2 ^ 63
         then (- Literal.digitsValue 0 ds, None)
         else (Int64.min_int, Some Strconv.ErrRange)
    else if Literal.digitsValue 0 ds <=? Int64.max_int
         then (Literal.digitsValue 0 ds, None)
         else (Int64.max_int, Some Strconv.ErrRange).
Proof.
  intros Hd.
  rewrite (parseUint_digits ds 0) by (unfold Strconv.maxUint64; lia || exact Hd).
  unfold Strconv.maxUint64, Int64.max_int, Int64.min_int.
  set (v := Literal.digitsValue 0 ds).
  destruct (v <=? 2 ^ 64 - 1) eqn:Efit.
  - destruct neg; cbn [negb andb].
    + destruct (v >? 2 ^ 63) eqn:E1; destruct (v <=? 2 ^ 63) eqn:E2;
        try lia; reflexivity.
    + destruct (v >=? 2 ^ 63) eqn:E1; destruct (v <=? 2 ^ 63 - 1) eqn:E2;
        try lia; reflexivity.
  - destruct neg; cbn [negb andb].
    + destruct (2 ^ 64 - 1 >? 2 ^ 63) eqn:E1; [|lia].
      destruct (v <=? 2 ^ 63) eqn:E2; [lia | reflexivity].
    + destruct (2 ^ 64 - 1 >=? 2 ^ 63) eqn:E1; [|lia].
      destruct (v <=? 2 ^ 63 - 1) eqn:E2; [lia | reflexivity].
Qed.

Lemma Atoi_unsigned (ds : string) :
  ds <> EmptyString ->
  Literal.allDigits ds = true ->
  Strconv.Atoi ds
  = if Literal.digitsValue 0 ds <=? Int64.max_int
    then (Literal.digitsValue 0 ds, None)
    else (Int64.max_int, Some Strconv.ErrRange).
Proof.
  intros Hne Hd. destruct ds as [|c t]; [congruence|].
  pose proof Hd as Hd'. cbn [Literal.allDigits] in Hd'.
  apply andb_true_iff in Hd'. destruct Hd' as [Hc _].
  destruct (digit_is_no_sign c Hc) as [Hplus Hminus].
  unfold Strconv.Atoi, Strconv.ParseInt. rewrite Hplus, Hminus.
  cbn [orb]. apply (ParseInt_clamp false (String c t) Hd).
Qed.

Lemma Atoi_plus (ds : string) :
  ds <> EmptyString ->
  Literal.allDigits ds = true ->
  Strconv.Atoi (String "+" ds)
  = if Literal.digitsValue 0 ds <=? Int64.max_int
    then (Literal.digitsValue 0 ds, None)
    else (Int64.max_int, Some Strconv.ErrRange).
Proof.
  intros Hne Hd. destruct ds as [|c t]; [congruence|].
  unfold Strconv.Atoi, Strconv.ParseInt.
  change (Ascii.eqb "+" "-") with false. change (Ascii.eqb "+" "+") with true.
  cbn [orb]. apply (ParseInt_clamp false (String c t) Hd).
Qed.

Lemma Atoi_minus (ds : string) :
  ds <> EmptyString ->
  Literal.allDigits ds = true ->
  Strconv.Atoi (String "-" ds)
  = if Literal.digitsValue 0 ds <=? 2 ^ 63
    then (- Literal.digitsValue 0 ds, None)
    else (Int64.min_int, Some Strconv.ErrRange).
Proof.
  intros Hne Hd. destruct ds as [|c t]; [congruence|].
  unfold Strconv.Atoi, Strconv.ParseInt.
  change (Ascii.eqb "-" "-") with true. change (Ascii.eqb "-" "+") with false.
  cbn [orb]. apply (ParseInt_clamp true (String c t) Hd).
Qed.

(** A byte that is not a digit makes the digit loop fail, with a syntax
    error or, when the digits before it already overflow, a range error. *)
Lemma parseUint_rejects (s : string) : forall n,
  Literal.allDigits s = false -> snd (Strconv.parseUint n s) <> None.
Proof.
  induction s as [|c t IH]; intros n Hd; [discriminate Hd|].
  cbn [Literal.allDigits] in Hd. cbn [Strconv.parseUint].
  destruct (Strconv.is_digit c); cbn [andb] in Hd.
  - destruct (n >=? Strconv.maxUint64 / 10 + 1); [discriminate|].
    destruct (n * 10 + Strconv.digit_val c >? Strconv.maxUint64);
      [discriminate|]. apply IH. exact Hd.
  - discriminate.
Qed.

Lemma parseUint_range_value (s : string) : forall n,
  snd (Strconv.parseUint n s) = Some Strconv.ErrRange ->
  fst (Strconv.parseUint n s) = Strconv.maxUint64.
Proof.
  induction s as [|c t IH]; intros n; cbn [Strconv.parseUint];
    [discriminate|].
  destruct (Strconv.is_digit c); [|discriminate].
  destruct (n >=? Strconv.maxUint64 / 10 + 1); [reflexivity|].
  destruct (n * 10 + Strconv.digit_val c >? Strconv.maxUint64);
    [reflexivity|]. apply IH.
Qed.

Lemma Atoi_rejects (s : string) :
  Literal.stripSign s = EmptyString
  \/ Literal.allDigits (Literal.stripSign s) = false ->
  snd (Strconv.Atoi s) <> None.
Proof.
  unfold Strconv.Atoi, Strconv.ParseInt, Literal.stripSign.
  destruct s as [|c t]; [discriminate|].
  set (neg := Ascii.eqb c "-").
  set (digits := if Ascii.eqb c "+" || neg then t else String c t).
  intros [Hempty|Hbad].
  - rewrite Hempty. discriminate.
  - destruct digits as [|d ds] eqn:Hdig; [discriminate|].
    pose proof (parseUint_rejects (String d ds) 0 Hbad) as Hrej.
    pose proof (parseUint_range_value (String d ds) 0) as Hval.
    destruct (Strconv.parseUint 0 (String d ds)) as [un [[|]|]];
      cbn [fst snd] in Hrej, Hval; [discriminate | | congruence].
    rewrite (Hval eq_refl). unfold Strconv.maxUint64.
    destruct neg; cbn [negb andb].
    + destruct (2 ^ 64 - 1 >? 2 ^ 63) eqn:E; [discriminate | lia].
    + destruct (2 ^ 64 - 1 >=? 2 ^ 63) eqn:E; [discriminate | lia].
Qed.

(** The text [Itoa] prints for a natural number consists of digits and
    denotes that number. *)
Lemma string_of_uint_digits (d : Decimal.uint) :
  Literal.allDigits (NilEmpty.string_of_uint d) = true
  /\ forall n, Literal.digitsValue n (NilEmpty.string_of_uint d)
               = Literal.uintValue n d.
Proof.
  induction d as [|d [IHa IHv]|d [IHa IHv]|d [IHa IHv]|d [IHa IHv]
                  |d [IHa IHv]|d [IHa IHv]|d [IHa IHv]|d [IHa IHv]
                  |d [IHa IHv]|d [IHa IHv]];
    cbn [NilEmpty.string_of_uint Literal.allDigits Literal.digitsValue
         Literal.uintValue];
    (split; [try reflexivity; rewrite IHa; reflexivity
            | intros n; try reflexivity; rewrite IHv; reflexivity]).
Qed.

Lemma of_uint_acc_value (d : Decimal.uint) : forall acc,
  Z.pos (Pos.of_uint_acc d acc) = Literal.uintValue (Z.pos acc) d.
Proof.
  induction d; intros acc; cbn [Pos.of_uint_acc Literal.uintValue];
    try reflexivity; rewrite IHd; f_equal; lia.
Qed.

Lemma of_uint_value (d : Decimal.uint) :
  Z.of_N (Pos.of_uint d) = Literal.uintValue 0 d.
Proof.
  induction d; cbn [Pos.of_uint Literal.uintValue Z.of_N];
    try reflexivity; try exact IHd; apply of_uint_acc_value.
Qed.

Lemma to_uint_value (p : positive) :
  Literal.uintValue 0 (Pos.to_uint p) = Z.pos p.
Proof.
  rewrite <- of_uint_value, Unsigned.of_to. reflexivity.
Qed.

Lemma string_of_uint_nonempty (d : Decimal.uint) :
  d <> Decimal.Nil -> NilEmpty.string_of_uint d <> EmptyString.
Proof. destruct d; intros H; [congruence | discriminate ..]. Qed.

Lemma NilZero_string_of_uint_nonnil (d : Decimal.uint) :
  d <> Decimal.Nil -> NilZero.string_of_uint d = NilEmpty.string_of_uint d.
Proof. destruct d; intros H; [congruence | reflexivity ..]. Qed.

(** [Atoi] reads back what [Itoa] prints, for every 64-bit integer. *)
Lemma Atoi_Itoa (z : Z) :
  Int64.in_range z -> Strconv.Atoi (Strconv.Itoa z) = (z, None).
Proof.
  unfold Int64.in_range, Int64.min_int, Int64.max_int. intros Hz.
  unfold Strconv.Itoa. destruct z as [|p|p]; cbn [Z.to_int NilZero.string_of_int].
  - reflexivity.
  - pose proof (Unsigned.to_uint_nonnil p) as Hnn.
    rewrite (NilZero_string_of_uint_nonnil _ Hnn).
    destruct (string_of_uint_digits (Pos.to_uint p)) as [Ha Hv].
    rewrite Atoi_unsigned
      by (exact Ha || apply string_of_uint_nonempty; exact Hnn).
    rewrite Hv, to_uint_value. unfold Int64.max_int.
    destruct (Z.pos p <=? 2 ^ 63 - 1) eqn:E; [reflexivity | lia].
  - pose proof (Unsigned.to_uint_nonnil p) as Hnn.
    rewrite (NilZero_string_of_uint_nonnil _ Hnn).
    destruct (string_of_uint_digits (Pos.to_uint p)) as [Ha Hv].
    rewrite Atoi_minus
      by (exact Ha || apply string_of_uint_nonempty; exact Hnn).
    rewrite Hv, to_uint_value.
    destruct (Z.pos p <=? 2 ^ 63) eqn:E; [reflexivity | lia].
Qed.

(** X1: a variable holding a decimal literal (digits, with an optional
    leading sign) is read as the number it denotes when that number is a
    64-bit integer; when it is out of range [getEnvInt] answers the fallback
    (the clamped value [Atoi] returns with its range error is not used). *)
Theorem getEnvInt_reads_literal
  (env : Env) (key : string) (fallback : Z) (ds : string) :
  ds <> EmptyString ->
  Literal.allDigits ds = true ->
  let v := Literal.digitsValue 0 ds in
  (environ env key = Some ds \/ environ env key = Some (String "+" ds) ->
   getEnvInt env key fallback = if v <=? Int64.max_int then v else fallback)
  /\ (environ env key = Some (String "-" ds) ->
      getEnvInt env key fallback = if v <=? 2 ^ 63 then - v else fallback).
Proof.
  intros Hne Hd v. unfold getEnvInt, Getenv. split.
  - intros [H|H]; rewrite H.
    + rewrite (Atoi_unsigned ds Hne Hd). fold v.
      destruct (v <=? Int64.max_int); reflexivity.
    + rewrite (Atoi_plus ds Hne Hd). fold v.
      destruct (v <=? Int64.max_int); reflexivity.
  - intros H. rewrite H. rewrite (Atoi_minus ds Hne Hd). fold v.
    destruct (v <=? 2 ^ 63); reflexivity.
Qed.

Lemma getEnvInt_reads_literal_witness :
  getEnvInt (Samples.envOf [("RETRIES", "+12")] (Samples.always (DoErr "")))
    "RETRIES" 5 = 12
  /\ getEnvInt
       (Samples.envOf [("RETRIES", "-99999999999999999999")]
          (Samples.always (DoErr "")))
       "RETRIES" 5 = 5.
Proof.
  split.
  - destruct (getEnvInt_reads_literal
                (Samples.envOf [("RETRIES", "+12")] (Samples.always (DoErr "")))
                "RETRIES" 5 "12") as [H _].
    + discriminate.
    + reflexivity.
    + apply H. right. reflexivity.
  - destruct (getEnvInt_reads_literal
                (Samples.envOf [("RETRIES", "-99999999999999999999")]
                   (Samples.always (DoErr "")))
                "RETRIES" 5 "99999999999999999999") as [_ H].
    + discriminate.
    + reflexivity.
    + apply H. reflexivity.
Defined.

(** X2: [getEnvInt] answers the fallback when the variable is unset, and
    when its text, after one optional leading sign, is empty or has a byte
    that is not a decimal digit (spaces, a decimal point, an underscore, a
    second sign). *)
Theorem getEnvInt_falls_back (env : Env) (key : string) (fallback : Z) :
  (environ env key = None -> getEnvInt env key fallback = fallback)
  /\ (forall s,
        environ env key = Some s ->
        Literal.stripSign s = EmptyString
        \/ Literal.allDigits (Literal.stripSign s) = false ->
        getEnvInt env key fallback = fallback).
Proof.
  unfold getEnvInt, Getenv. split.
  - intros H. rewrite H. reflexivity.
  - intros s H Hbad. rewrite H.
    pose proof (Atoi_rejects s Hbad) as Hrej.
    destruct (Strconv.Atoi s) as [v [e|]]; [reflexivity|].
    exfalso. apply Hrej. reflexivity.
Qed.

Lemma getEnvInt_falls_back_witness :
  getEnvInt (Samples.envOf [] (Samples.always (DoErr ""))) "TIMEOUT" 15 = 15
  /\ getEnvInt (Samples.envOf [("TIMEOUT", "1.5")] (Samples.always (DoErr "")))
       "TIMEOUT" 15 = 15.
Proof.
  split.
  - destruct (getEnvInt_falls_back
                (Samples.envOf [] (Samples.always (DoErr ""))) "TIMEOUT" 15)
      as [H _].
    apply H. reflexivity.
  - destruct (getEnvInt_falls_back
                (Samples.envOf [("TIMEOUT", "1.5")] (Samples.always (DoErr "")))
                "TIMEOUT" 15) as [_ H].
    apply (H "1.5"); [reflexivity|]. right. reflexivity.
Defined.

(** X3: [getEnvInt] reads back every 64-bit integer from the text
    [strconv.Itoa] prints for it, whatever the fallback. *)
Theorem getEnvInt_reads_Itoa
  (env : Env) (key : string) (fallback z : Z) :
  Int64.in_range z ->
  environ env key = Some (Strconv.Itoa z) ->
  getEnvInt env key fallback = z.
Proof.
  intros Hz H. unfold getEnvInt, Getenv. rewrite H.
  rewrite (Atoi_Itoa z Hz). reflexivity.
Qed.

Lemma getEnvInt_reads_Itoa_witness :
  getEnvInt
    (Samples.envOf [("RETRIES", Strconv.Itoa (-7))] (Samples.always (DoErr "")))
    "RETRIES" 5 = -7.
Proof.
  apply getEnvInt_reads_Itoa.
  - unfold Int64.in_range, Int64.min_int, Int64.max_int. lia.
  - reflexivity.
Defined.

(** ** The access log of [main] *)

(** X4: when the handler returns, the closure of [main] adds one
    [request_end] line, after everything the handler did, exactly when the
    status is 400 or above or the duration has reached [LOG_SLOW_MS];
    otherwise it adds nothing.  [LOG_ERRORS_ONLY] has no part in the
    decision, and the response is the handler's in both cases. *)
Theorem request_end_logged_iff
  (fuel : nat) (env : Env) (ctx out : RequestCtx.t)
  (durMs : Z) (remote : string) :
  snd (requestHandler fuel env ctx) = Some out ->
  Server.h fuel env ctx durMs remote
  = (if (400 <=? outStatus out) || (Server.logSlowMs env <=? durMs)
     then (fst (requestHandler fuel env ctx)
           ++ [Server.requestEnd out (outStatus out) durMs remote])%list
     else fst (requestHandler fuel env ctx),
     Some out).
Proof.
  intros Hout. unfold Server.h. rewrite Hout. fold (outStatus out).
  destruct (400 <=? outStatus out) eqn:Es;
    destruct (Server.logSlowMs env <=? durMs) eqn:Ed;
    destruct (outStatus out <? 400) eqn:Es';
    destruct (durMs <? Server.logSlowMs env) eqn:Ed';
    try lia; destruct (Server.logErrorsOnly env); reflexivity.
Qed.

Lemma request_end_logged_iff_witness :
  let env := Samples.envOf [("KEY", "s3cret"); ("LOG_ERRORS_ONLY", "true")]
               (Samples.always (DoOk Samples.ok200)) in
  exists out line,
    Server.h 6 env Samples.getFoo 2 "10.0.0.9" = ([line], Some out)
    /\ outStatus out = 407.
Proof.
  intros env.
  eexists. eexists.
  rewrite (request_end_logged_iff 6 env Samples.getFoo _ 2 "10.0.0.9" eq_refl).
  split; reflexivity.
Defined.

(** ** More on the retry engine *)

(** Where the response [makeRequest] returns comes from: it is one of the
    two responses the proxy makes itself, or a response the upstream gave
    with a status outside 500..599. *)
Lemma makeRequest_result (env : Env) (ctx : RequestCtx.t) (fuel : nat) :
  forall (attempt : Z) (n : nat) (resp : Response.t),
  snd (makeRequest fuel env ctx attempt n) = Some resp ->
  resp = timeoutResponse
  \/ resp = formatResponse
  \/ (exists m, client env m (requestOf ctx) = DoOk resp
                /\ is5xx (Response.StatusCode resp) = false).
Proof.
  induction fuel as [|fuel IH]; intros attempt n resp H; [discriminate H|].
  cbn [makeRequest] in H.
  destruct (attempt >? retries env).
  { left. cbn [snd] in H. congruence. }
  destruct (List.length _ <? 2)%nat.
  { right. left. cbn [snd] in H. congruence. }
  fold (requestOf ctx) in H.
  destruct (client env n (requestOf ctx)) as [msg|r] eqn:Hd.
  - cbn [snd] in H. exact (IH _ _ _ H).
  - destruct (Response.StatusCode r =? 429) eqn:H429.
    + cbn [snd] in H. injection H as H. subst r. right. right.
      exists n. split; [exact Hd|]. apply Z.eqb_eq in H429.
      rewrite H429. reflexivity.
    + destruct ((Response.StatusCode r >=? 500)
                && (Response.StatusCode r <=? 599)) eqn:H5.
      * cbn [snd] in H. exact (IH _ _ _ H).
      * cbn [snd] in H. injection H as H. subst r. right. right.
        exists n. split; [exact Hd | exact H5].
Qed.

(** X5: the handler never relays a 5xx response of the upstream.  A
    relayed status in 500..599 is always the proxy's own 504 "upstream
    timeout"; this includes the case of an upstream that itself answers
    504. *)
Theorem upstream_5xx_never_relayed
  (fuel : nat) (env : Env) (ctx out : RequestCtx.t) :
  snd (requestHandler fuel env ctx) = Some out ->
  is5xx (outStatus out) = true ->
  out = relay ctx timeoutResponse
  /\ outStatus out = 504
  /\ outBody out = "upstream timeout".
Proof.
  unfold requestHandler.
  destruct (authFails env ctx).
  { cbn [snd]. intros H. injection H as H. subst out. discriminate. }
  destruct (formatFails ctx).
  { cbn [snd]. intros H. injection H as H. subst out. discriminate. }
  cbn [snd].
  destruct (snd (makeRequest fuel env ctx 1 0)) as [resp|] eqn:Hres;
    [|discriminate].
  cbn [option_map]. intros H. injection H as H. subst out.
  rewrite outStatus_relay. intros H5.
  destruct (makeRequest_result env ctx fuel 1 0 resp Hres)
    as [Ht|[Hf|(m & _ & Hno)]].
  - subst resp. repeat split.
  - subst resp. discriminate H5.
  - congruence.
Qed.

Lemma upstream_5xx_never_relayed_witness :
  let env := Samples.envOf [("RETRIES", "1")]
               (Samples.always (DoOk (Samples.response 504 [] "gateway"))) in
  exists out,
    snd (requestHandler 3 env Samples.getFoo) = Some out
    /\ outBody out = "upstream timeout".
Proof.
  intros env. eexists. split; [reflexivity|].
  destruct (upstream_5xx_never_relayed 3 env Samples.getFoo _ eq_refl eq_refl)
    as (_ & _ & Hb).
  exact Hb.
Defined.

(** X6: a first upstream answer that is neither 429 nor 5xx is relayed at
    once: one exchange, no sleep, no log line. *)
Theorem first_answer_passes_through
  (fuel : nat) (env : Env) (ctx : RequestCtx.t) (resp : Response.t) :
  authFails env ctx = false ->
  formatFails ctx = false ->
  1 <= retries env ->
  client env 0%nat (requestOf ctx) = DoOk resp ->
  passedThrough resp = true ->
  requestHandler (S fuel) env ctx
  = ([EvDo (requestOf ctx)], Some (relay ctx resp)).
Proof.
  intros Hauth Hfmt Hret Hd Hp.
  rewrite (requestHandler_proxied (S fuel) env ctx Hauth Hfmt).
  rewrite (makeRequest_passed env ctx Hfmt fuel 1 0 resp) by assumption.
  reflexivity.
Qed.

Lemma first_answer_passes_through_witness :
  let env := Samples.envOf []
               (Samples.always (DoOk (Samples.response 404 [] "no such page"))) in
  requestHandler 1 env Samples.getFoo
  = ([EvDo (requestOf Samples.getFoo)],
     Some (relay Samples.getFoo (Samples.response 404 [] "no such page"))).
Proof.
  intros env.
  apply (first_answer_passes_through 0 env Samples.getFoo).
  - reflexivity.
  - reflexivity.
  - vm_compute. discriminate.
  - reflexivity.
  - reflexivity.
Defined.

Section RetryRuns.

Variable env : Env.
Variable ctx : RequestCtx.t.
Hypothesis well_formed : formatFails ctx = false.

Lemma makeRequest_retried_logs (fuel : nat) (attempt : Z) (n : nat) :
  attempt <= retries env ->
  retried (client env n (requestOf ctx)) = true ->
  Observation.logAttempts (fst (makeRequest (S fuel) env ctx attempt n))
  = attempt
    :: Observation.logAttempts
         (fst (makeRequest fuel env ctx (Int64.add attempt 1) (S n))).
Proof.
  intros Ha Hr. cbn [makeRequest].
  destruct (attempt >? retries env) eqn:E; [lia|].
  unfold formatFails in well_formed.
  fold (RequestCtx.RequestURI ctx) in well_formed.
  rewrite well_formed. fold (requestOf ctx).
  destruct (client env n (requestOf ctx)) as [msg|resp]; cbn [retried] in Hr.
  - reflexivity.
  - apply andb_true_iff in Hr. destruct Hr as [H429 H5].
    apply negb_true_iff in H429. rewrite H429.
    unfold is5xx in H5. rewrite H5. reflexivity.
Qed.

(** X7: failed attempts compose.  [k] attempts in a row that end in a
    transport error or in a 5xx answer, in any mix, each within the budget,
    amount to [k] rounds of one exchange, one log line bearing the attempt
    number and one backoff sleep, followed by what [makeRequest] does from
    attempt [attempt + k] on. *)
Theorem failed_attempts_compose (k : nat) :
  forall (fuel : nat) (attempt : Z) (n : nat),
  Int64.min_int <= attempt ->
  attempt + Z.of_nat k <= retries env + 1 ->
  retries env < Int64.max_int ->
  (forall i, (i < k)%nat ->
     retried (client env (n + i)%nat (requestOf ctx)) = true) ->
  let r := makeRequest (k + fuel) env ctx attempt n in
  let rest := makeRequest fuel env ctx (attempt + Z.of_nat k) (n + k)%nat in
  snd r = snd rest
  /\ calls (fst r) = (k + calls (fst rest))%nat
  /\ actions (fst r)
     = (flat_map (failedRound (requestOf ctx)) (attemptsFrom attempt k)
        ++ actions (fst rest))%list
  /\ Observation.logAttempts (fst r)
     = (attemptsFrom attempt k ++ Observation.logAttempts (fst rest))%list.
Proof.
  induction k as [|k IH]; intros fuel attempt n Hmin Hk Hmax Hall.
  - cbn [Nat.add attemptsFrom flat_map app]. rewrite Nat.add_0_r, Z.add_0_r.
    repeat split.
  - assert (Hle : attempt <= retries env) by lia.
    pose proof (Hall 0%nat ltac:(lia)) as H0. rewrite Nat.add_0_r in H0.
    cbn [Nat.add].
    destruct (makeRequest_retried env ctx well_formed (k + fuel) attempt n
                Hle H0) as (Ha & Hc & Hs).
    pose proof (makeRequest_retried_logs (k + fuel) attempt n Hle H0) as Hl.
    rewrite add_1_small in Ha, Hc, Hs, Hl by lia.
    destruct (IH fuel (attempt + 1) (S n)) as (Is & Ic & Ia & Il); try lia.
    { intros i Hi. replace (S n + i)%nat with (n + S i)%nat by lia.
      apply Hall. lia. }
    replace (attempt + 1 + Z.of_nat k) with (attempt + Z.of_nat (S k))
      in Is, Ic, Ia, Il by lia.
    replace (S n + k)%nat with (n + S k)%nat in Is, Ic, Ia, Il by lia.
    cbv zeta. rewrite Hs, Hc, Ha, Hl, Is, Ic, Ia, Il.
    cbn [attemptsFrom flat_map app]. rewrite <- app_assoc. repeat split.
Qed.

(** However far a run has got, it has made no more exchanges than the
    attempts left in the budget. *)
Lemma calls_bounded (fuel : nat) : forall (attempt : Z) (n : nat),
  Int64.min_int <= attempt ->
  retries env < Int64.max_int ->
  (calls (fst (makeRequest fuel env ctx attempt n))
   <= Z.to_nat (retries env + 1 - attempt))%nat.
Proof.
  induction fuel as [|fuel IH]; intros attempt n Hmin Hmax; [cbn; lia|].
  destruct (Z_gt_le_dec attempt (retries env)) as [Hgt|Hle].
  - rewrite makeRequest_exhausted by assumption. cbn. lia.
  - destruct (retried (client env n (requestOf ctx))) eqn:Hr.
    + destruct (makeRequest_retried env ctx well_formed fuel attempt n Hle Hr)
        as (_ & Hc & _).
      rewrite add_1_small in Hc by lia. rewrite Hc.
      specialize (IH (attempt + 1) (S n) ltac:(lia) Hmax). lia.
    + destruct (client env n (requestOf ctx)) as [msg|resp] eqn:Hd;
        [discriminate Hr|].
      cbn [retried] in Hr.
      destruct (Response.StatusCode resp =? 429) eqn:H429.
      * apply Z.eqb_eq in H429.
        rewrite (makeRequest_429 env ctx well_formed fuel attempt n resp
                   Hle Hd H429).
        unfold calls. cbn [fst filter isDo List.length].
        rewrite retryAfterSleep_no_calls. cbn [List.length]. lia.
      * rewrite (makeRequest_passed env ctx well_formed fuel attempt n resp
                   Hle Hd).
        -- cbn. lia.
        -- unfold passedThrough. rewrite H429.
           cbn [negb andb] in Hr |- *. rewrite Hr. reflexivity.
Qed.

End RetryRuns.

Lemma failed_attempts_compose_witness :
  let env := Samples.envOf []
               (fun n _ =>
                  match n with
                  | 0%nat => DoErr "dial tcp: i/o timeout"
                  | 1%nat => DoOk Samples.down503
                  | _ => DoOk Samples.ok200
                  end) in
  snd (makeRequest 3 env Samples.getFoo 1 0)
    = snd (makeRequest 1 env Samples.getFoo 3 2)
  /\ Observation.logAttempts (fst (makeRequest 3 env Samples.getFoo 1 0))
     = [1; 2].
Proof.
  intros env.
  destruct (failed_attempts_compose env Samples.getFoo eq_refl 2 1 1 0)
    as (Hs & _ & _ & Hl).
  - unfold Int64.min_int. lia.
  - vm_compute. discriminate.
  - vm_compute. reflexivity.
  - intros i Hi. destruct i as [|[|i]]; [reflexivity | reflexivity | lia].
  - split; [exact Hs | exact Hl].
Defined.

(** X8: at no moment of a run has the handler made more upstream exchanges
    than [retries] (none when [retries] is below 1), provided [retries] is
    not the largest integer. *)
Theorem exchanges_never_exceed_retries
  (fuel : nat) (env : Env) (ctx : RequestCtx.t) :
  retries env < Int64.max_int ->
  (calls (fst (requestHandler fuel env ctx)) <= Z.to_nat (retries env))%nat.
Proof.
  intros Hmax. unfold requestHandler.
  destruct (authFails env ctx); [cbn; lia|].
  destruct (formatFails ctx) eqn:Hfmt; [cbn; lia|].
  cbn [fst].
  pose proof (calls_bounded env ctx Hfmt fuel 1 0
                ltac:(unfold Int64.min_int; lia) Hmax) as H.
  replace (retries env + 1 - 1) with (retries env) in H by lia. exact H.
Qed.

Lemma exchanges_never_exceed_retries_witness :
  let env := Samples.envOf [("RETRIES", "2")]
               (Samples.always (DoErr "connection refused")) in
  (calls (fst (requestHandler 2 env Samples.getFoo)) <= 2)%nat.
Proof.
  intros env.
  apply (exchanges_never_exceed_retries 2 env Samples.getFoo).
  vm_compute. reflexivity.
Defined.

(** ** The time spent backing off *)

Lemma sleepTotal_actions (tr : list Event) :
  Observation.sleepTotal (actions tr) = Observation.sleepTotal tr.
Proof.
  induction tr as [|e tr IH]; [reflexivity|].
  destruct e; cbn [actions filter isLog negb Observation.sleepTotal];
    fold (actions tr); rewrite ?IH; reflexivity.
Qed.

Lemma sleepTotal_rounds (req : Request.t) (k : nat) : forall a,
  0 <= a ->
  a + Z.of_nat k <= 92233720369 ->
  2 * Observation.sleepTotal (flat_map (failedRound req) (attemptsFrom a k))
  = 100 * Time.Millisecond * Z.of_nat k * (2 * a + Z.of_nat k - 1).
Proof.
  induction k as [|k IH]; intros a Ha Hk.
  - cbn [attemptsFrom flat_map Observation.sleepTotal Z.of_nat]. ring.
  - cbn [attemptsFrom flat_map failedRound app Observation.sleepTotal].
    rewrite backoff_small by lia.
    assert (Hpos : 0 <= 100 * Time.Millisecond * a)
      by (unfold Time.Millisecond; lia).
    rewrite (Z.max_r _ _ Hpos).
    rewrite Z.mul_add_distr_l, (IH (a + 1)) by lia.
    rewrite Nat2Z.inj_succ. unfold Z.succ. ring.
Qed.

(** X9: a request whose first [retries] attempts all fail (transport
    errors or 5xx answers, in any mix) is answered with the synthetic 504
    after having slept 100 ms + 200 ms + ... + [retries] x 100 ms in all,
    that is 50 ms x [retries] x ([retries] + 1): 1.5 s with the default of
    five attempts. *)
Theorem exhaustion_backoff_total
  (fuel : nat) (env : Env) (ctx : RequestCtx.t) :
  authFails env ctx = false ->
  formatFails ctx = false ->
  0 <= retries env <= 92233720368 ->
  (forall i, (i < Z.to_nat (retries env))%nat ->
     retried (client env i (requestOf ctx)) = true) ->
  (Z.to_nat (retries env) < fuel)%nat ->
  let r := requestHandler fuel env ctx in
  snd r = Some (relay ctx timeoutResponse)
  /\ 2 * Observation.sleepTotal (fst r)
     = 100 * Time.Millisecond * retries env * (retries env + 1).
Proof.
  intros Hauth Hfmt Hret Hall Hfuel.
  rewrite (requestHandler_proxied fuel env ctx Hauth Hfmt). cbn [fst snd].
  destruct (retry_exhausts env ctx Hfmt (Z.to_nat (retries env)) fuel 1 0)
    as (Hs & _ & Ha);
    try (unfold Int64.min_int, Int64.max_int; lia).
  { intros i Hi. cbn [Nat.add]. apply Hall. exact Hi. }
  rewrite Hs. split; [reflexivity|].
  rewrite <- sleepTotal_actions, Ha.
  rewrite sleepTotal_rounds by lia.
  rewrite Z2Nat.id by lia. ring.
Qed.

Lemma exhaustion_backoff_total_witness :
  let env := Samples.envOf [] (Samples.always (DoErr "connection refused")) in
  Observation.sleepTotal (fst (requestHandler 6 env Samples.getFoo))
  = 1500 * Time.Millisecond.
Proof.
  intros env.
  destruct (exhaustion_backoff_total 6 env Samples.getFoo) as [_ H].
  - reflexivity.
  - reflexivity.
  - vm_compute. split; discriminate.
  - intros i _. reflexivity.
  - vm_compute. lia.
  - change (retries env) with 5 in H. unfold Time.Millisecond in *. lia.
Defined.

(** ** The headers of the answers the proxy makes itself *)

(** X10: the 407 and 400 answers are sent as the handler found the
    response, without any of the relay's headers: on the reset response the
    server hands over they have no plain header (no header under a name
    fasthttp does not manage itself).  The synthetic 504 goes through the
    relay like an upstream response: its plain headers are exactly
    [X-Proxy-Upstream-Status: 504] and [Via: roproxy-lite], although no
    upstream answered. *)
Theorem proxy_made_answers_headers
  (fuel : nat) (env : Env) (ctx : RequestCtx.t) :
  (authFails env ctx = true \/ formatFails ctx = true ->
   exists out,
     requestHandler fuel env ctx = ([], Some out)
     /\ (outStatus out = 407 \/ outStatus out = 400)
     /\ Response.Header (RequestCtx.Response out)
        = ResponseHeader.SetStatusCode
            (Response.Header (RequestCtx.Response ctx)) (outStatus out)
     /\ plainHeaders out = plainHeaders ctx)
  /\ (authFails env ctx = false ->
      formatFails ctx = false ->
      snd (makeRequest fuel env ctx 1 0) = Some timeoutResponse ->
      plainHeaders ctx = [] ->
      exists out,
        snd (requestHandler fuel env ctx) = Some out
        /\ outStatus out = 504
        /\ plainHeaders out
           = [("X-Proxy-Upstream-Status", "504"); ("Via", "roproxy-lite")]).
Proof.
  split.
  - intros H. unfold requestHandler.
    destruct (authFails env ctx).
    + eexists. split; [reflexivity|]. split; [left; reflexivity|].
      split; reflexivity.
    + destruct H as [H|H]; [discriminate H|]. rewrite H.
      eexists. split; [reflexivity|]. split; [right; reflexivity|].
      split; reflexivity.
  - intros Hauth Hfmt Hres Hplain.
    rewrite (requestHandler_proxied fuel env ctx Hauth Hfmt). cbn [snd].
    rewrite Hres. eexists. split; [reflexivity|].
    split; [apply outStatus_relay|].
    rewrite plainHeaders_relay.
    unfold plainHeaders in Hplain.
    cbn [timeoutResponse ResponseHeader.VisitAll fold_left
         RequestCtx.SetStatusCode RequestCtx.Response Response.Header
         Response.SetStatusCode ResponseHeader.SetStatusCode ResponseHeader.h].
    change (ResponseHeader.VisitAll (Response.Header timeoutResponse))
      with (@nil argsKV).
    cbn [fold_left RequestCtx.SetStatusCode RequestCtx.Response
         Response.Header Response.SetStatusCode ResponseHeader.SetStatusCode
         ResponseHeader.h].
    rewrite Hplain. reflexivity.
Qed.

Lemma proxy_made_answers_headers_witness :
  let env := Samples.envOf [("RETRIES", "0")]
               (Samples.always (DoOk Samples.ok200)) in
  exists out,
    snd (requestHandler 1 env Samples.getFoo) = Some out
    /\ outStatus out = 504
    /\ plainHeaders out
       = [("X-Proxy-Upstream-Status", "504"); ("Via", "roproxy-lite")].
Proof.
  intros env.
  destruct (proxy_made_answers_headers 1 env Samples.getFoo) as [_ H].
  apply H; reflexivity.
Defined.

(** ** What the upstream request carries *)

Lemma upper_lower (c : ascii) :
  Strings.upper_ascii (Strings.lower_ascii c) = Strings.upper_ascii c.
Proof. destruct c as [[] [] [] [] [] [] [] []]; reflexivity. Qed.

Lemma lower_is_dash (c : ascii) :
  Ascii.eqb (Strings.lower_ascii c) "-" = Ascii.eqb c "-".
Proof. destruct c as [[] [] [] [] [] [] [] []]; reflexivity. Qed.

Lemma normalize_ToLower (s : string) : forall up,
  normalizeFrom up (Strings.ToLower s) = normalizeFrom up s.
Proof.
  induction s as [|c t IH]; intros up; cbn [Strings.ToLower normalizeFrom];
    [reflexivity|].
  destruct up.
  - rewrite upper_lower, IH. reflexivity.
  - rewrite lower_is_dash. destruct (Ascii.eqb c "-") eqn:E.
    + apply Ascii.eqb_eq in E. subst c. rewrite IH. reflexivity.
    + rewrite lower_lower, IH. reflexivity.
Qed.

(** Two names have the same canonical form exactly when they are equal,
    letter case apart. *)
Lemma normalize_eq_iff (a b : string) :
  normalizeHeaderKey a = normalizeHeaderKey b
  <-> Strings.ToLower a = Strings.ToLower b.
Proof.
  unfold normalizeHeaderKey. split; intros H.
  - rewrite <- (ToLower_normalize a true), <- (ToLower_normalize b true), H.
    reflexivity.
  - rewrite <- (normalize_ToLower a true), <- (normalize_ToLower b true), H.
    reflexivity.
Qed.

Lemma peekArg_setArg_same (h : list argsKV) (k v : string) :
  peekArg (setArg h k v) k = v.
Proof.
  induction h as [|[k0 v0] t IH]; cbn [setArg peekArg].
  - rewrite String.eqb_refl. reflexivity.
  - destruct (String.eqb k k0) eqn:E; cbn [peekArg]; rewrite E;
      [reflexivity | exact IH].
Qed.

Lemma peekArg_setArg_other (h : list argsKV) (k v key : string) :
  k <> key -> peekArg (setArg h k v) key = peekArg h key.
Proof.
  intros Hne. induction h as [|[k0 v0] t IH]; cbn [setArg peekArg].
  - apply String.eqb_neq in Hne. rewrite String.eqb_sym, Hne. reflexivity.
  - destruct (String.eqb k k0) eqn:E; cbn [peekArg].
    + apply String.eqb_eq in E. subst k0.
      apply String.eqb_neq in Hne. rewrite String.eqb_sym, Hne. reflexivity.
    + rewrite IH. reflexivity.
Qed.

Lemma lastValue_found (key : string) (hs : list argsKV) : forall found,
  Observation.lastValue key hs found
  = match Observation.lastValue key hs None with
    | Some v => Some v
    | None => found
    end.
Proof.
  induction hs as [|[k v] t IH]; intros found; cbn [Observation.lastValue];
    [reflexivity|].
  destruct (String.eqb (Strings.ToLower k) (Strings.ToLower key)).
  - rewrite (IH (Some v)).
    destruct (Observation.lastValue key t None); reflexivity.
  - apply IH.
Qed.

Lemma dropped_same_name (a b : string) :
  Strings.ToLower a = Strings.ToLower b -> dropped a = dropped b.
Proof. intros H. unfold dropped. rewrite H. reflexivity. Qed.

(** The value the copy leaves under a name that is not dropped: that of the
    last inbound entry of this name, or what the store held before. *)
Lemma peekArg_copyHeaders (key : string) (hs : list argsKV) : forall hd,
  dropped key = false ->
  peekArg (RequestHeader.h (fold_left copyHeader hs hd))
    (normalizeHeaderKey key)
  = match Observation.lastValue key hs None with
    | Some v => v
    | None => peekArg (RequestHeader.h hd) (normalizeHeaderKey key)
    end.
Proof.
  induction hs as [|[k v] t IH]; intros hd Hkey;
    cbn [fold_left Observation.lastValue]; [reflexivity|].
  rewrite (IH _ Hkey).
  set (found := if String.eqb (Strings.ToLower k) (Strings.ToLower key)
                then Some v else None).
  rewrite (lastValue_found key t found).
  destruct (Observation.lastValue key t None) as [w|]; [reflexivity|].
  unfold found, copyHeader. cbn [fst snd].
  destruct (String.eqb (Strings.ToLower k) (Strings.ToLower key)) eqn:E.
  - apply String.eqb_eq in E.
    rewrite (dropped_same_name k key E), Hkey.
    pose proof (proj2 (normalize_eq_iff k key) E) as Hn.
    unfold RequestHeader.SetBytesKV, RequestHeader.SetCanonical.
    destruct (String.eqb (normalizeHeaderKey k) "Host") eqn:Hh.
    { apply normalized_Host_dropped in Hh.
      rewrite (dropped_same_name k key E) in Hh. congruence. }
    cbn [RequestHeader.h]. rewrite Hn. apply peekArg_setArg_same.
  - apply String.eqb_neq in E.
    destruct (dropped k); [reflexivity|].
    unfold RequestHeader.SetBytesKV, RequestHeader.SetCanonical.
    destruct (String.eqb (normalizeHeaderKey k) "Host"); [reflexivity|].
    cbn [RequestHeader.h]. apply peekArg_setArg_other.
    intros Hn. apply E. apply normalize_eq_iff. exact Hn.
Qed.

(** X11: under every name that is not in the drop-set, the upstream request
    carries the value of the last inbound header of that name (letter case
    apart).  Without such an inbound header it carries "RoProxy" under
    [User-Agent] and nothing under any other name: the proxy's own
    [User-Agent] and its deletion of [Roblox-Id] come before the copy, so an
    inbound [User-Agent] or [Roblox-Id] reaches the upstream as sent. *)
Theorem upstream_header_value
  (ctx : RequestCtx.t) (upHost upPath key : string) :
  dropped key = false ->
  RequestHeader.Peek (Request.Header (upstreamRequest ctx upHost upPath)) key
  = match Observation.lastValue key
            (RequestHeader.VisitAll (Request.Header (RequestCtx.Request ctx)))
            None with
    | Some v => v
    | None =>
        if String.eqb (Strings.ToLower key) "user-agent" then "RoProxy"
        else EmptyString
    end.
Proof.
  intros Hkey. rewrite upstreamRequest_eq. cbn [Request.Header].
  unfold RequestHeader.Peek.
  destruct (String.eqb (normalizeHeaderKey key) "Host") eqn:Hh.
  { apply normalized_Host_dropped in Hh. congruence. }
  rewrite (peekArg_copyHeaders key _ _ Hkey).
  destruct (Observation.lastValue key _ None) as [v|]; [reflexivity|].
  cbn [RequestHeader.h peekArg].
  destruct (String.eqb (Strings.ToLower key) "user-agent") eqn:E.
  - apply String.eqb_eq in E.
    assert (Hn : normalizeHeaderKey key = normalizeHeaderKey "User-Agent")
      by (apply normalize_eq_iff; exact E).
    rewrite Hn. reflexivity.
  - destruct (String.eqb (normalizeHeaderKey key) "User-Agent") eqn:E';
      [|reflexivity].
    apply String.eqb_eq in E'. apply String.eqb_neq in E. exfalso. apply E.
    apply (proj1 (normalize_eq_iff key "User-Agent")). exact E'.
Qed.

Lemma upstream_header_value_witness :
  let ctx := RequestCtx.fresh
               (Samples.inbound "GET" "/example.com/foo"
                  [("User-Agent", "curl/8.0"); ("Roblox-Id", "7");
                   ("Accept", "a"); ("Accept", "b")] "") in
  let out := Request.Header (upstreamRequest ctx "example.com" "foo") in
  RequestHeader.Peek out "user-agent" = "curl/8.0"
  /\ RequestHeader.Peek out "Roblox-Id" = "7"
  /\ RequestHeader.Peek out "ACCEPT" = "b".
Proof.
  intros ctx.
  split; [|split].
  - rewrite (upstream_header_value ctx "example.com" "foo" "user-agent");
      reflexivity.
  - rewrite (upstream_header_value ctx "example.com" "foo" "Roblox-Id");
      reflexivity.
  - rewrite (upstream_header_value ctx "example.com" "foo" "ACCEPT");
      reflexivity.
Defined.

Lemma upstreamRequest_host (ctx : RequestCtx.t) (upHost upPath : string) :
  RequestHeader.host (Request.Header (upstreamRequest ctx upHost upPath))
  = upHost.
Proof.
  rewrite upstreamRequest_eq. cbn [Request.Header].
  match goal with
  | |- context [fold_left copyHeader ?l ?hd] =>
      destruct (copyHeaders_inv l hd) as [Hhost _]
  end.
  { intros kv [H|[]]. subst kv. reflexivity. }
  exact Hhost.
Qed.

(** X12: the [Host] of the upstream request is the host of the target,
    whatever the inbound headers are, an inbound [Host] included, and it is
    what [Peek] answers under any letter case of the name. *)
Theorem upstream_Host_is_target
  (ctx : RequestCtx.t) (upHost upPath key : string) :
  RequestHeader.host (Request.Header (upstreamRequest ctx upHost upPath))
    = upHost
  /\ (Strings.ToLower key = "host" ->
      RequestHeader.Peek (Request.Header (upstreamRequest ctx upHost upPath))
        key = upHost).
Proof.
  split; [apply upstreamRequest_host|].
  intros Hkey. unfold RequestHeader.Peek.
  assert (Hn : normalizeHeaderKey key = "Host").
  { change "Host" with (normalizeHeaderKey "Host").
    apply normalize_eq_iff. exact Hkey. }
  rewrite Hn. cbn [String.eqb Ascii.eqb Bool.eqb].
  apply upstreamRequest_host.
Qed.

Lemma upstream_Host_is_target_witness :
  let ctx := RequestCtx.fresh
               (Samples.inbound "GET" "/example.com/foo"
                  [("X-Forwarded-Host", "evil.example")] "") in
  RequestHeader.Peek (Request.Header (upstreamRequest ctx "example.com" "foo"))
    "hOsT" = "example.com".
Proof.
  intros ctx.
  destruct (upstream_Host_is_target ctx "example.com" "foo" "hOsT") as [_ H].
  apply H. reflexivity.
Defined.

Lemma cut_some (s : string) : forall a b,
  Strings.cut s = Some (a, b) ->
  s = a ++ String "/" b /\ Strings.has_slash a = false.
Proof.
  induction s as [|c t IH]; intros a b H; cbn [Strings.cut] in H;
    [discriminate H|].
  destruct (Ascii.eqb c "/") eqn:E.
  - apply Ascii.eqb_eq in E. subst c. injection H as Ha Hb. subst a b.
    split; reflexivity.
  - destruct (Strings.cut t) as [[a' b']|]; [|discriminate H].
    injection H as Ha Hb. subst a b.
    destruct (IH a' b' eq_refl) as [Ht Hs]. subst t.
    split; [reflexivity|]. cbn [Strings.has_slash]. rewrite E, Hs.
    reflexivity.
Qed.

(** X13: for every request-target that passes the format test, the URI of
    the upstream request is the target with its first byte replaced by
    "https://"; the host is the text before the first ['/'] of the rest and
    holds no ['/'] itself. *)
Theorem upstream_uri_is_target_behind_scheme (ctx : RequestCtx.t) :
  formatFails ctx = false ->
  let target := Strings.from1 (RequestCtx.RequestURI ctx) in
  let hd := Request.Header (requestOf ctx) in
  RequestHeader.requestURI hd = "https://" ++ target
  /\ Strings.has_slash (RequestHeader.host hd) = false
  /\ exists path, target = RequestHeader.host hd ++ "/" ++ path.
Proof.
  intros Hfmt target hd. unfold formatFails in Hfmt.
  fold (RequestCtx.RequestURI ctx) in Hfmt. fold target in Hfmt.
  unfold hd, requestOf. fold target.
  unfold Strings.SplitN2 in *.
  destruct (Strings.cut target) as [[a b]|] eqn:Hcut; [|discriminate Hfmt].
  cbn [nth].
  destruct (cut_some target a b Hcut) as [Ht Hs].
  destruct (upstreamRequest_line ctx a b) as (Hu & _ & _).
  rewrite Hu, (upstreamRequest_host ctx a b). split; [|split].
  - rewrite Ht. reflexivity.
  - exact Hs.
  - exists b. exact Ht.
Qed.

Lemma upstream_uri_is_target_behind_scheme_witness :
  let ctx := RequestCtx.fresh
               (Samples.inbound "GET" "/api.example.com//v1/items?x=1&y=/"
                  [] "") in
  RequestHeader.requestURI (Request.Header (requestOf ctx))
  = "https://api.example.com//v1/items?x=1&y=/".
Proof.
  intros ctx.
  destruct (upstream_uri_is_target_behind_scheme ctx eq_refl) as [H _].
  exact H.
Defined.

(** X14: the [X-Proxy-Upstream-Status] header of a relayed response reads
    back, with [strconv.Atoi], as the status of that response, whatever
    headers the upstream sent (one of this very name included). *)
Theorem upstream_status_header_reads_back
  (ctx : RequestCtx.t) (resp : Response.t) :
  Int64.in_range (Response.StatusCode resp) ->
  Strconv.Atoi
    (ResponseHeader.Peek
       (Response.Header (RequestCtx.Response (relay ctx resp)))
       "X-Proxy-Upstream-Status")
  = (outStatus (relay ctx resp), None).
Proof.
  intros Hr. rewrite outStatus_relay.
  unfold ResponseHeader.Peek. fold (plainHeaders (relay ctx resp)).
  rewrite plainHeaders_relay.
  change (normalizeHeaderKey "X-Proxy-Upstream-Status")
    with "X-Proxy-Upstream-Status".
  rewrite peekArg_setArg_other by discriminate.
  rewrite peekArg_setArg_same. apply Atoi_Itoa. exact Hr.
Qed.

Lemma upstream_status_header_reads_back_witness :
  Strconv.Atoi
    (ResponseHeader.Peek
       (Response.Header
          (RequestCtx.Response
             (relay Samples.getFoo
                (Samples.response 418 [("X-Proxy-Upstream-Status", "200")]
                   "teapot"))))
       "X-Proxy-Upstream-Status")
  = (418, None).
Proof.
  rewrite upstream_status_header_reads_back.
  - reflexivity.
  - unfold Int64.in_range, Int64.min_int, Int64.max_int. vm_compute.
    split; discriminate.
Defined.

(** ** The earlier revision *)

Lemma SplitN2_two (s : string) :
  (List.length (Strings.SplitN2 s) <? 2)%nat = false ->
  exists a b, Strings.SplitN2 s = [a; b].
Proof.
  unfold Strings.SplitN2. destruct (Strings.cut s) as [[a b]|].
  - intros _. exists a, b. reflexivity.
  - discriminate.
Qed.

Lemma SplitN2_one (s : string) :
  (List.length (Strings.SplitN2 s) <? 2)%nat = true ->
  Strings.SplitN2 s = [s].
Proof.
  unfold Strings.SplitN2. destruct (Strings.cut s) as [[a b]|].
  - discriminate.
  - reflexivity.
Qed.

Section LegacyRuns.

Variable env : Env.
Variable ctx : RequestCtx.t.
Hypothesis well_formed : formatFails ctx = false.

Lemma legacy_makeRequest_step (fuel : nat) (attempt : Z) (n : nat) :
  attempt <= Legacy.retries env ->
  Legacy.makeRequest (S fuel) env ctx attempt n
  = match client env n (Legacy.requestOf ctx) with
    | DoErr err =>
        (EvDo (Legacy.requestOf ctx)
           :: EvLog [("at", JStr "retry"); ("attempt", JInt attempt);
                     ("max", JInt (Legacy.retries env));
                     ("method", JStr (RequestCtx.Method ctx));
                     ("uri", JStr (RequestCtx.RequestURI ctx));
                     ("error", JStr err)]
           :: fst (Legacy.makeRequest fuel env ctx (Int64.add attempt 1) (S n)),
         snd (Legacy.makeRequest fuel env ctx (Int64.add attempt 1) (S n)))
    | DoOk resp => ([EvDo (Legacy.requestOf ctx)], Legacy.Returned resp)
    end.
Proof.
  intros Hle. cbn [Legacy.makeRequest].
  destruct (attempt >? Legacy.retries env) eqn:E; [lia|].
  unfold Legacy.requestOf, RequestCtx.RequestURI.
  destruct (SplitN2_two _ well_formed) as (a & b & Hab).
  rewrite Hab. reflexivity.
Qed.

Lemma legacy_makeRequest_exhausted (fuel : nat) (attempt : Z) (n : nat) :
  attempt > Legacy.retries env ->
  Legacy.makeRequest (S fuel) env ctx attempt n
  = ([], Legacy.Returned Legacy.failResponse).
Proof.
  intros H. cbn [Legacy.makeRequest].
  destruct (attempt >? Legacy.retries env) eqn:E; [reflexivity | lia].
Qed.

(** The earlier revision never sleeps and never panics on a well-formed
    target. *)
Lemma legacy_makeRequest_quiet (fuel : nat) : forall (attempt : Z) (n : nat),
  filter Legacy.isSleep (fst (Legacy.makeRequest fuel env ctx attempt n)) = []
  /\ snd (Legacy.makeRequest fuel env ctx attempt n) <> Legacy.Panicked.
Proof.
  induction fuel as [|fuel IH]; intros attempt n;
    [split; [reflexivity | discriminate]|].
  destruct (Z_gt_le_dec attempt (Legacy.retries env)) as [Hgt|Hle].
  - rewrite legacy_makeRequest_exhausted by exact Hgt.
    split; [reflexivity | discriminate].
  - rewrite legacy_makeRequest_step by exact Hle.
    destruct (client env n (Legacy.requestOf ctx)) as [msg|resp].
    + cbn [fst snd filter Legacy.isSleep]. apply IH.
    + split; [reflexivity | discriminate].
Qed.

Lemma legacy_failures_compose (k : nat) :
  forall (fuel : nat) (attempt : Z) (n : nat),
  Int64.min_int <= attempt ->
  attempt + Z.of_nat k <= Legacy.retries env + 1 ->
  attempt + Z.of_nat k <= Int64.max_int ->
  (forall i, (i < k)%nat ->
     exists msg, client env (n + i)%nat (Legacy.requestOf ctx) = DoErr msg) ->
  snd (Legacy.makeRequest (k + fuel) env ctx attempt n)
    = snd (Legacy.makeRequest fuel env ctx (attempt + Z.of_nat k) (n + k)%nat)
  /\ calls (fst (Legacy.makeRequest (k + fuel) env ctx attempt n))
     = (k + calls (fst (Legacy.makeRequest fuel env ctx
                          (attempt + Z.of_nat k) (n + k)%nat)))%nat.
Proof.
  induction k as [|k IH]; intros fuel attempt n Hmin Hk Hmax Hall.
  - cbn [Nat.add]. rewrite Nat.add_0_r, Z.add_0_r. split; reflexivity.
  - assert (Hle : attempt <= Legacy.retries env) by lia.
    destruct (Hall 0%nat ltac:(lia)) as [msg H0]. rewrite Nat.add_0_r in H0.
    cbn [Nat.add]. rewrite legacy_makeRequest_step by exact Hle.
    rewrite H0. cbn [fst snd]. rewrite add_1_small by lia.
    destruct (IH fuel (attempt + 1) (S n)) as (Is & Ic); try lia.
    { intros i Hi. replace (S n + i)%nat with (n + S i)%nat by lia.
      apply Hall. lia. }
    replace (attempt + 1 + Z.of_nat k) with (attempt + Z.of_nat (S k))
      in Is, Ic by lia.
    replace (S n + k)%nat with (n + S k)%nat in Is, Ic by lia.
    rewrite Is. split; [reflexivity|].
    unfold calls in *. cbn [filter isDo List.length]. rewrite Ic. reflexivity.
Qed.

End LegacyRuns.

(** X15: in the earlier revision the guard of the handler is what keeps
    [makeRequest] from indexing out of range: the handler never panics,
    while [makeRequest] called on a target without a second segment (with an
    attempt left) panics at [url[1]] before any exchange. *)
Theorem legacy_guard_prevents_panic
  (fuel : nat) (env : Env) (ctx : RequestCtx.t) :
  snd (Legacy.requestHandler fuel env ctx) <> Legacy.Panicked
  /\ (forall attempt n,
        formatFails ctx = true ->
        attempt <= Legacy.retries env ->
        Legacy.makeRequest (S fuel) env ctx attempt n = ([], Legacy.Panicked)).
Proof.
  split.
  - unfold Legacy.requestHandler.
    destruct (authFails env ctx); [discriminate|].
    destruct (formatFails ctx) eqn:Hfmt; [discriminate|].
    cbn [snd].
    destruct (legacy_makeRequest_quiet env ctx Hfmt fuel 1 0) as [_ H].
    destruct (snd (Legacy.makeRequest fuel env ctx 1 0));
      [discriminate | congruence | discriminate].
  - intros attempt n Hfmt Hle. cbn [Legacy.makeRequest].
    destruct (attempt >? Legacy.retries env) eqn:E; [lia|].
    unfold formatFails in Hfmt. rewrite (SplitN2_one _ Hfmt). reflexivity.
Qed.

Lemma legacy_guard_prevents_panic_witness :
  let env := Samples.envOf [] (Samples.always (DoOk Samples.ok200)) in
  let ctx := RequestCtx.fresh (Samples.inbound "GET" "/example.com" [] "") in
  Legacy.makeRequest 1 env ctx 1 0 = ([], Legacy.Panicked).
Proof.
  intros env ctx.
  destruct (legacy_guard_prevents_panic 0 env ctx) as [_ H].
  apply H; [reflexivity|]. vm_compute. discriminate.
Defined.

Lemma peekArg_delAllArgs_other (h : list argsKV) (k key : string) :
  k <> key -> peekArg (delAllArgs h k) key = peekArg h key.
Proof.
  intros Hne. induction h as [|[k0 v0] t IH]; [reflexivity|].
  unfold delAllArgs in *. cbn [filter fst peekArg].
  destruct (String.eqb k k0) eqn:E; cbn [negb peekArg].
  - apply String.eqb_eq in E. subst k0.
    apply String.eqb_neq in Hne. rewrite String.eqb_sym, Hne. exact IH.
  - rewrite IH. reflexivity.
Qed.

Lemma legacy_upstreamRequest_h (ctx : RequestCtx.t) (url0 url1 : string) :
  exists h1,
    RequestHeader.h (Request.Header (Legacy.upstreamRequest ctx url0 url1))
    = delAllArgs (setArg h1 "User-Agent" "RoProxy") "Roblox-Id".
Proof.
  unfold Legacy.upstreamRequest. cbv zeta.
  match goal with
  | |- context [fold_left Legacy.copyHeader ?l ?hd] =>
      set (hd1 := fold_left Legacy.copyHeader l hd)
  end.
  exists (RequestHeader.h hd1). reflexivity.
Qed.

(** X16: in the earlier revision the identity the proxy presents is its
    own, whatever the client sent: the upstream request carries
    [User-Agent: RoProxy] and no [Roblox-Id] entry.  (In the later revision
    both are applied before the header copy and give way to the inbound
    values.) *)
Theorem legacy_identity_headers (ctx : RequestCtx.t) (url0 url1 : string) :
  let out := Request.Header (Legacy.upstreamRequest ctx url0 url1) in
  RequestHeader.Peek out "User-Agent" = "RoProxy"
  /\ RequestHeader.Peek out "Roblox-Id" = EmptyString
  /\ (forall kv, In kv (RequestHeader.h out) -> fst kv <> "Roblox-Id").
Proof.
  cbv zeta. destruct (legacy_upstreamRequest_h ctx url0 url1) as [h1 Hh].
  unfold RequestHeader.Peek.
  change (String.eqb (normalizeHeaderKey "User-Agent") "Host") with false.
  change (String.eqb (normalizeHeaderKey "Roblox-Id") "Host") with false.
  change (normalizeHeaderKey "User-Agent") with "User-Agent".
  change (normalizeHeaderKey "Roblox-Id") with "Roblox-Id".
  cbv iota. rewrite Hh.
  assert (Hgone : forall kv,
            In kv (delAllArgs (setArg h1 "User-Agent" "RoProxy") "Roblox-Id") ->
            fst kv <> "Roblox-Id").
  { intros kv Hin. unfold delAllArgs in Hin. apply filter_In in Hin.
    destruct Hin as [_ Hk]. apply negb_true_iff in Hk.
    apply String.eqb_neq in Hk. congruence. }
  split; [|split].
  - rewrite peekArg_delAllArgs_other by discriminate.
    apply peekArg_setArg_same.
  - apply peekArg_absent. intros k v Hin. exact (Hgone (k, v) Hin).
  - exact Hgone.
Qed.

Lemma legacy_outStatus_relay (ctx : RequestCtx.t) (r : Response.t) :
  outStatus (Legacy.relay ctx r) = Response.StatusCode r.
Proof.
  unfold outStatus, Legacy.relay, RequestCtx.withResponseHeader,
    Response.withHeader.
  cbn [RequestCtx.Response Response.Header].
  unfold Response.StatusCode at 1, ResponseHeader.StatusCode at 1.
  cbn [Response.Header]. rewrite relayHeaders_statusCode.
  cbn [RequestCtx.SetStatusCode RequestCtx.SetBody RequestCtx.Response
       Response.SetStatusCode Response.SetBody Response.Header
       ResponseHeader.SetStatusCode ResponseHeader.statusCode].
  pose proof (StatusCode_nonzero r) as H. apply Z.eqb_neq in H.
  rewrite H. reflexivity.
Qed.

Lemma legacy_outBody_relay (ctx : RequestCtx.t) (r : Response.t) :
  outBody (Legacy.relay ctx r) = Response.Body r.
Proof. reflexivity. Qed.

(** X17: the earlier revision retries transport errors only.  After [N]
    failed exchanges the next answer is relayed, with its status and its
    body, whatever that status is (a 503 or a 429 as well), after [N + 1]
    exchanges, when [N] is below [retries]; otherwise the answer is the
    proxy's 500 "Proxy failed to connect. Please try again." after exactly
    [retries] exchanges.  No run ever sleeps, whatever the request. *)
Theorem legacy_transport_failures
  (env : Env) (ctx : RequestCtx.t) (fuel N : nat) :
  let r := Legacy.requestHandler fuel env ctx in
  filter Legacy.isSleep (fst r) = []
  /\ (authFails env ctx = false ->
      formatFails ctx = false ->
      (forall i, (i < N)%nat ->
         exists msg, client env i (Legacy.requestOf ctx) = DoErr msg) ->
      (forall resp,
          Z.of_nat N < Legacy.retries env ->
          client env N (Legacy.requestOf ctx) = DoOk resp ->
          (N < fuel)%nat ->
          exists out,
            snd r = Legacy.Returned out
            /\ outStatus out = Response.StatusCode resp
            /\ outBody out = Response.Body resp
            /\ calls (fst r) = S N)
      /\ (Legacy.retries env <= Z.of_nat N ->
          Legacy.retries env < Int64.max_int ->
          (Z.to_nat (Legacy.retries env) < fuel)%nat ->
          exists out,
            snd r = Legacy.Returned out
            /\ outStatus out = 500
            /\ outBody out = "Proxy failed to connect. Please try again."
            /\ calls (fst r) = Z.to_nat (Legacy.retries env))).
Proof.
  cbv zeta. split.
  { unfold Legacy.requestHandler.
    destruct (authFails env ctx); [reflexivity|].
    destruct (formatFails ctx) eqn:Hfmt; [reflexivity|].
    cbn [fst]. apply (legacy_makeRequest_quiet env ctx Hfmt fuel 1 0). }
  intros Hauth Hfmt Hfail.
  unfold Legacy.requestHandler. rewrite Hauth, Hfmt. cbn [fst snd].
  assert (Hrange : Legacy.retries env <= Int64.max_int).
  { unfold Legacy.retries, getEnvInt.
    pose proof (Atoi_range (Getenv env "RETRIES")) as H.
    destruct (Strconv.Atoi (Getenv env "RETRIES")) as [v [e|]];
      unfold Int64.in_range, Int64.max_int in *; cbn [fst] in H; lia. }
  split.
  - intros resp HN Hd Hfuel.
    destruct fuel as [|fuel]; [lia|].
    assert (Hsplit : (S fuel = N + S (fuel - N))%nat) by lia.
    rewrite Hsplit.
    destruct (legacy_failures_compose env ctx Hfmt N (S (fuel - N)) 1 0)
      as (Hs & Hc); try (unfold Int64.min_int, Int64.max_int in *; lia).
    { intros i Hi. cbn [Nat.add]. apply Hfail. exact Hi. }
    rewrite Hs, Hc. cbn [Nat.add].
    rewrite legacy_makeRequest_step by (assumption || lia).
    rewrite Hd. cbn [fst snd Legacy.mapOutcome].
    exists (Legacy.relay ctx resp).
    split; [reflexivity|]. split; [apply legacy_outStatus_relay|].
    split; [apply legacy_outBody_relay|].
    unfold calls. cbn [filter isDo List.length]. lia.
  - intros HN Hmax Hfuel.
    exists (Legacy.relay ctx Legacy.failResponse).
    rewrite legacy_outStatus_relay, legacy_outBody_relay.
    destruct fuel as [|fuel]; [lia|].
    destruct (Z_lt_le_dec (Legacy.retries env) 1) as [Hlt|Hge].
    + rewrite legacy_makeRequest_exhausted by lia.
      replace (Z.to_nat (Legacy.retries env)) with 0%nat by lia.
      repeat split.
    + set (k := Z.to_nat (Legacy.retries env)).
      assert (Hsplit : (S fuel = k + S (fuel - k))%nat) by lia.
      rewrite Hsplit.
      destruct (legacy_failures_compose env ctx Hfmt k (S (fuel - k)) 1 0)
        as (Hs & Hc); try (unfold Int64.min_int; lia).
      { intros i Hi. cbn [Nat.add]. apply Hfail. lia. }
      rewrite Hs, Hc. rewrite legacy_makeRequest_exhausted by lia.
      cbn [fst snd Legacy.mapOutcome]. repeat split.
      unfold calls. cbn [filter List.length]. lia.
Qed.

Lemma legacy_transport_failures_witness :
  let env := Samples.envOf []
               (Samples.failsFirst 1 (DoOk Samples.down503)) in
  let r := Legacy.requestHandler 2 env Samples.getFoo in
  exists out,
    snd r = Legacy.Returned out
    /\ outStatus out = 503
    /\ outBody out = "down"
    /\ calls (fst r) = 2%nat.
Proof.
  intros env.
  destruct (legacy_transport_failures env Samples.getFoo 2 1) as (_ & H).
  destruct H as (H & _).
  - reflexivity.
  - reflexivity.
  - intros i Hi. exists "dial tcp: i/o timeout".
    destruct i as [|i]; [reflexivity | lia].
  - apply (H Samples.down503).
    + vm_compute. reflexivity.
    + reflexivity.
    + lia.
Defined.
